(** * Multi-gate screening and strategy integration

    A shallow embedding of the decision logic of the repository:

    - [.github/scripts/gate1_fundamental.py]  ([gate1_score])
    - [.github/scripts/gate2_growth_value.py] ([gate2_priority])
    - [src/strategy_integration.py]           (the verdict records, their
      derived properties and [StrategyIntegrator])

    Numbers.  Python [int] is [Z].  Python [float] is idealised as an exact
    rational [Q]: rounding, infinities and NaN are outside the model, and
    equalities between computed floats are stated with [==] ([Qeq]).
    Timestamps ([datetime]) are seconds in [Z]; the clock is an explicit
    argument where the source reads [datetime.now]. *)

From Stdlib Require Import QArith Qminmax ZArith Lia Lqa Sorted Permutation.
From stdpp Require Import gmap strings list.

Local Open Scope Z_scope.

(** ** Python primitives *)

(** [a < b] on floats, as a boolean. *)
Definition Qltb (a b : Q) : bool :=
  match (a ?= b)%Q with Lt => true | _ => false end.

(** [a >= b] on floats. *)
Definition Qgeb (a b : Q) : bool := negb (Qltb a b).

(** The builtin [min(a, b)]: the first argument unless the second is
    strictly smaller. *)
Definition py_min (a b : Q) : Q := if Qltb b a then b else a.

(** Truth value of a float: every float but zero is true. *)
Definition float_truthy (x : Q) : bool := negb (Qeq_bool x 0).

(** Truth value of an [Optional[float]]: [None] and [0.0] are false. *)
Definition opt_float_truthy (o : option Q) : bool :=
  match o with
  | None => false
  | Some x => float_truthy x
  end.

(** *** Division that can fault

    [a / b] on floats raises [ZeroDivisionError] when [b] is zero.  A
    computation in [Div] yields the denominators it evaluated, in order,
    and either the fault or its value. *)

Inductive ZeroDivisionError : Set := float_division_by_zero.

Definition Div (A : Type) : Type := (list Q * (ZeroDivisionError + A))%type.

#[global] Instance Div_ret : MRet Div := λ A (x : A), ([], inr x).

#[global] Instance Div_bind : MBind Div := λ A B (f : A → Div B) (m : Div A),
  match m with
  | (log, inl e) => (log, inl e)
  | (log, inr x) =>
      match f x with
      | (log', r) => (log ++ log', r)
      end
  end.

Definition truediv (a b : Q) : Div Q :=
  ([b], if Qeq_bool b 0 then inl float_division_by_zero else inr (a / b)%Q).

(** The denominators a computation evaluated, and its outcome. *)
Definition denominators {A} (m : Div A) : list Q := fst m.
Definition outcome {A} (m : Div A) : ZeroDivisionError + A := snd m.

(** *** [list.sort(key=..., reverse=True)]

    Keys are the tuples [(int, float)] of the integrator.  Tuples compare
    lexicographically.  The sort is stable, also with [reverse=True]:
    elements with equal keys keep their original order.  A stable sort has
    one result for a given input, so insertion from the right stands for
    the library's merge sort. *)

Definition tuple_lt (a b : Z * Q) : bool :=
  if (a.1 =? b.1)%Z then Qltb a.2 b.2 else (a.1 <? b.1)%Z.

Section SortReverse.
Context {A : Type} (key : A → Z * Q).

Fixpoint insert_reverse (x : A) (l : list A) : list A :=
  match l with
  | [] => [x]
  | y :: l' =>
      if tuple_lt (key x) (key y) then y :: insert_reverse x l'
      else x :: y :: l'
  end.

Fixpoint sort_reverse (l : list A) : list A :=
  match l with
  | [] => []
  | x :: l' => insert_reverse x (sort_reverse l')
  end.
End SortReverse.

(** ** The lightweight gates ([.github/scripts]) *)

(** A [DataFrame] of numeric columns: its rows in index order, each row a
    [Series] from column name to value.  [row.get(key, default)]. *)
Definition row_get (row : gmap string Q) (key : string) (dflt : Q) : Q :=
  default dflt (row !! key).

(** The total [gate1_score] accumulates from the last row, before the
    final [max(score, 0)]. *)
Definition gate1_raw_total (row : gmap string Q) : Z :=
  let score := 0 in
  let score :=
    if Qltb (row_get row "资产负债率" 100) 70 then score + 2 else score in
  let score :=
    if Qltb 1 (row_get row "流动比率" 0) then score + 1 else score in
  let score :=
    if Qltb 10 (row_get row "ROE" 0) then score + 2 else score in
  let score :=
    if Qltb 0 (row_get row "经营现金流量净额" (-1)) then score + 2 else score in
  let score :=
    if Qltb (row_get row "净利润" (-1)) 0 then score - 2 else score in
  score.

(** [gate1_score(funda)]; [None] is the missing frame, and
    [funda.iloc[-1]] the last row of a frame that is not empty. *)
Definition gate1_score (funda : option (list (gmap string Q))) : Z :=
  match funda with
  | None => 0
  | Some rows =>
      if (length rows =? 0)%nat then 0
      else
        match last rows with
        | None => 0
        | Some row => Z.max (gate1_raw_total row) 0
        end
  end.

(** The part of [gate2_priority] after the two fields are read. *)
Definition gate2_decide (growth pe : Q) : Z :=
  if negb (Qltb 0 growth) then 0
  else if Qltb 30 growth && Qltb pe 20 then 3
  else if Qltb 20 growth then 2
  else if Qltb 10 growth then 1
  else 0.

(** The locals [growth] and [pe] of [gate2_priority], read from the last
    row. *)
Definition gate2_growth (row : gmap string Q) : Q := row_get row "净利润同比" 0.
Definition gate2_pe (row : gmap string Q) : Q := row_get row "市盈率" 100.

(** [gate2_priority(funda)]. *)
Definition gate2_priority (funda : option (list (gmap string Q))) : Z :=
  match funda with
  | None => 0
  | Some rows =>
      if (length rows <? 2)%nat then 0
      else
        match last rows with
        | None => 0
        | Some row => gate2_decide (gate2_growth row) (gate2_pe row)
        end
  end.

(** ** The verdict records ([src/strategy_integration.py]) *)

Inductive Quadrant : Set := TOP_RIGHT | BOTTOM_RIGHT | TOP_LEFT | BOTTOM_LEFT.

#[global] Instance Quadrant_eq_dec : EqDecision Quadrant.
Proof. solve_decision. Defined.

Inductive SignalLevel : Set := LEVEL_1 | LEVEL_2 | LEVEL_3.

#[global] Instance SignalLevel_eq_dec : EqDecision SignalLevel.
Proof. solve_decision. Defined.

(** [SignalLevel.value]. *)
Definition value (l : SignalLevel) : Z :=
  match l with
  | LEVEL_1 => 1
  | LEVEL_2 => 2
  | LEVEL_3 => 3
  end.

Module RationalInvestmentScore.
Record t : Type := {
  stock_code : string;
  stock_name : string;
  total_score : Q;
  component_scores : gmap string Q;
  survival_veto : bool;
  veto_reason : option string;
  analysis_date : Z
}.

Definition is_pass (self : t) (threshold : Q) : bool :=
  negb (survival_veto self) && Qgeb (total_score self) threshold.
End RationalInvestmentScore.

Module GrowthValuationPosition.
Record t : Type := {
  stock_code : string;
  stock_name : string;
  growth_rate : Q;
  valuation : Q;
  quadrant : Quadrant;
  peg_ratio : option Q;
  industry_avg_growth : option Q;
  industry_avg_valuation : option Q
}.

Definition is_in_target_quadrant (self : t) (target : Quadrant) : bool :=
  bool_decide (quadrant self = target).

(** The guard is the truth value of the two optional floats, so a
    baseline of [0.0] takes the same branch as [None]. *)
Definition get_relative_position (self : t) : Q * Q :=
  match industry_avg_growth self, industry_avg_valuation self with
  | Some avg_growth, Some avg_valuation =>
      if float_truthy avg_growth && float_truthy avg_valuation then
        ((growth_rate self - avg_growth)%Q, (valuation self - avg_valuation)%Q)
      else (0%Q, 0%Q)
  | _, _ => (0%Q, 0%Q)
  end.
End GrowthValuationPosition.

Module ShortTermSignal.
Record t : Type := {
  stock_code : string;
  stock_name : string;
  trend_conditions_met : bool;
  sentiment_conditions_met : bool;
  structure_conditions_met : bool;
  soft_conditions_met : Z;
  soft_conditions_total : Z;
  current_price : Q;
  structure_low : Q;
  first_target : Q;
  second_target : Q;
  stop_loss : Q;
  signal_date : Z
}.

Definition all_hard_conditions_met (self : t) : bool :=
  trend_conditions_met self && sentiment_conditions_met self
    && structure_conditions_met self.

Definition potential_return (self : t) : Div (Q * Q) :=
  if Qltb 0 (current_price self) then
    r1 ← truediv (first_target self - current_price self)%Q (current_price self);
    r2 ← truediv (second_target self - current_price self)%Q (current_price self);
    mret (r1, r2)
  else mret (0%Q, 0%Q).

Definition risk_reward_ratio (self : t) : Div Q :=
  let potential_gain := (first_target self - current_price self)%Q in
  let potential_loss := (current_price self - stop_loss self)%Q in
  if Qltb 0 potential_loss then truediv potential_gain potential_loss
  else mret 0%Q.
End ShortTermSignal.

Module IntegratedSignal.
Record t : Type := {
  stock_code : string;
  stock_name : string;
  rational_investment : RationalInvestmentScore.t;
  growth_valuation : GrowthValuationPosition.t;
  short_term : ShortTermSignal.t;
  signal_level : SignalLevel;
  pass_all_strategies : bool;
  suggested_position : Q;
  entry_price_range : Q * Q;
  targets : list Q;
  stop_loss : Q;
  holding_period : Z * Z;
  analysis_date : Z;
  confidence_score : Q
}.

(** The sort key of [integrate_strategies]:
    [lambda x: (x.signal_level.value, x.confidence_score)]. *)
Definition sort_key (x : t) : Z * Q :=
  (value (signal_level x), confidence_score x).
End IntegratedSignal.

(** ** [StrategyIntegrator] *)

Module StrategyIntegrator.

(** The two attributes [__init__] reads from the configuration. *)
Record t : Type := {
  rational_threshold : Q;
  target_quadrant : Quadrant
}.

(** The integrator built from [_get_default_config]. *)
Definition default_integrator : t :=
  {| rational_threshold := 7.5; target_quadrant := BOTTOM_RIGHT |}.

Definition _determine_signal_level
    (pass_rational pass_growth pass_short_term : bool) : SignalLevel :=
  if pass_rational && pass_growth && pass_short_term then LEVEL_1
  else if pass_growth && pass_short_term then LEVEL_2
  else if pass_rational then LEVEL_3
  else LEVEL_3.

(** The divisions by the literal [10.0] cannot fault and are written with
    the plain quotient. *)
Definition _calculate_confidence_score (self : t)
    (rational : RationalInvestmentScore.t)
    (growth : GrowthValuationPosition.t)
    (short_term : ShortTermSignal.t)
    (pass_all : bool) : Q :=
  let score := 0%Q in
  let rational_score_norm :=
    py_min (RationalInvestmentScore.total_score rational / 10) 1 in
  let score := (score + rational_score_norm * 4)%Q in
  let score :=
    if bool_decide (GrowthValuationPosition.quadrant growth = target_quadrant self)
    then (score + 3)%Q
    else if opt_float_truthy (GrowthValuationPosition.peg_ratio growth)
            && match GrowthValuationPosition.peg_ratio growth with
               | Some peg => Qltb peg 1
               | None => false
               end
    then (score + 2)%Q
    else (score + 1)%Q in
  let score :=
    if ShortTermSignal.all_hard_conditions_met short_term
    then (score + 2)%Q else score in
  let score :=
    if (3 <=? ShortTermSignal.soft_conditions_met short_term)%Z
    then (score + 1)%Q else score in
  let score := if pass_all then (score + 1)%Q else score in
  py_min score 10.

(** The locals [base_position], [rr_multiplier] and [final_position] of
    [_calculate_position_size]. *)
Definition base_position (signal_level : SignalLevel) : Q :=
  if bool_decide (signal_level = LEVEL_1) then 0.04
  else if bool_decide (signal_level = LEVEL_2) then 0.02
  else 0.01.

Definition rr_multiplier (risk_reward_ratio : Q) : Q :=
  if Qltb 2 risk_reward_ratio then 1.2
  else if Qltb 1.5 risk_reward_ratio then 1
  else 0.8.

Definition final_position
    (signal_level : SignalLevel) (confidence_score risk_reward_ratio : Q) : Q :=
  let confidence_multiplier := (confidence_score / 10)%Q in
  (base_position signal_level * confidence_multiplier
     * rr_multiplier risk_reward_ratio)%Q.

Definition _calculate_position_size
    (signal_level : SignalLevel) (confidence_score risk_reward_ratio : Q) : Q :=
  let max_position := 0.08%Q in
  py_min (final_position signal_level confidence_score risk_reward_ratio)
    max_position.

(** [{s.stock_code: s for s in l}]: a later record replaces an earlier one
    with the same code. *)
Definition dict_by_code {V : Type} (code : V → string) (l : list V)
    : gmap string V :=
  foldl (λ d s, <[code s := s]> d) ∅ l.

(** The body of the loop once the three verdicts of [code] are found.
    [now] is what [datetime.now] returns when the signal is built. *)
Definition build_signal (self : t) (now : Z) (code : string)
    (rational : RationalInvestmentScore.t)
    (growth : GrowthValuationPosition.t)
    (short_term : ShortTermSignal.t) : Div IntegratedSignal.t :=
  let pass_rational :=
    RationalInvestmentScore.is_pass rational (rational_threshold self) in
  let pass_growth :=
    GrowthValuationPosition.is_in_target_quadrant growth (target_quadrant self) in
  let pass_short_term := ShortTermSignal.all_hard_conditions_met short_term in
  let signal_level :=
    _determine_signal_level pass_rational pass_growth pass_short_term in
  let pass_all := pass_rational && pass_growth && pass_short_term in
  let confidence_score :=
    _calculate_confidence_score self rational growth short_term pass_all in
  rr ← ShortTermSignal.risk_reward_ratio short_term;
  let suggested_position :=
    _calculate_position_size signal_level confidence_score rr in
  mret {|
    IntegratedSignal.stock_code := code;
    IntegratedSignal.stock_name := RationalInvestmentScore.stock_name rational;
    IntegratedSignal.rational_investment := rational;
    IntegratedSignal.growth_valuation := growth;
    IntegratedSignal.short_term := short_term;
    IntegratedSignal.signal_level := signal_level;
    IntegratedSignal.pass_all_strategies := pass_all;
    IntegratedSignal.suggested_position := suggested_position;
    IntegratedSignal.entry_price_range :=
      ((ShortTermSignal.current_price short_term * 0.98)%Q,
       (ShortTermSignal.current_price short_term * 1.02)%Q);
    IntegratedSignal.targets :=
      [ShortTermSignal.first_target short_term;
       ShortTermSignal.second_target short_term];
    IntegratedSignal.stop_loss := ShortTermSignal.stop_loss short_term;
    IntegratedSignal.holding_period := (5, 20);
    IntegratedSignal.analysis_date := now;
    IntegratedSignal.confidence_score := confidence_score
  |}.

(** The loop [for code in all_codes], with the list built so far.  A
    verdict record is always true, so [not rational] holds exactly when
    [dict.get] returned [None]. *)
Fixpoint integrate_loop (self : t) (clock : nat → Z)
    (rational_dict : gmap string RationalInvestmentScore.t)
    (growth_dict : gmap string GrowthValuationPosition.t)
    (short_term_dict : gmap string ShortTermSignal.t)
    (codes : list string) (integrated_signals : list IntegratedSignal.t)
    : Div (list IntegratedSignal.t) :=
  match codes with
  | [] => mret integrated_signals
  | code :: rest =>
      match rational_dict !! code, growth_dict !! code, short_term_dict !! code with
      | Some rational, Some growth, Some short_term =>
          integrated_signal ←
            build_signal self (clock (length integrated_signals)) code
              rational growth short_term;
          integrate_loop self clock rational_dict growth_dict short_term_dict
            rest (integrated_signals ++ [integrated_signal])
      | _, _, _ =>
          integrate_loop self clock rational_dict growth_dict short_term_dict
            rest integrated_signals
      end
  end.

(** [integrate_strategies].  The order in which a [set] is iterated is not
    fixed by the language: [iter_order] gives it.  [clock n] is the time at
    which the [n]-th signal is built. *)
Definition integrate_strategies (self : t)
    (iter_order : gset string → list string) (clock : nat → Z)
    (rational_scores : list RationalInvestmentScore.t)
    (growth_positions : list GrowthValuationPosition.t)
    (short_term_signals : list ShortTermSignal.t)
    : Div (list IntegratedSignal.t) :=
  let rational_dict :=
    dict_by_code RationalInvestmentScore.stock_code rational_scores in
  let growth_dict :=
    dict_by_code GrowthValuationPosition.stock_code growth_positions in
  let short_term_dict :=
    dict_by_code ShortTermSignal.stock_code short_term_signals in
  let all_codes : gset string :=
    dom rational_dict ∪ dom growth_dict ∪ dom short_term_dict in
  integrated_signals ←
    integrate_loop self clock rational_dict growth_dict short_term_dict
      (iter_order all_codes) [];
  mret (sort_reverse IntegratedSignal.sort_key integrated_signals).

End StrategyIntegrator.

(** * Sample inputs *)

(** A last row with fast growth at a low multiple, and one with the same
    growth at a high multiple. *)
Definition cheap_growth_row : gmap string Q :=
  <["净利润同比" := 35%Q]> (<["市盈率" := 15%Q]> ∅).

Definition dear_growth_row : gmap string Q :=
  <["净利润同比" := 35%Q]> (<["市盈率" := 40%Q]> ∅).

Definition shrinking_row : gmap string Q :=
  <["净利润同比" := (-5)%Q]> (<["市盈率" := 8%Q]> ∅).

(** A position in an industry whose average growth is flat: both baselines
    are known, the first is [0.0]. *)
Definition flat_industry_position : GrowthValuationPosition.t := {|
  GrowthValuationPosition.stock_code := "600000";
  GrowthValuationPosition.stock_name := "flat industry";
  GrowthValuationPosition.growth_rate := 0.2;
  GrowthValuationPosition.valuation := 10;
  GrowthValuationPosition.quadrant := BOTTOM_RIGHT;
  GrowthValuationPosition.peg_ratio := None;
  GrowthValuationPosition.industry_avg_growth := Some 0%Q;
  GrowthValuationPosition.industry_avg_valuation := Some 15%Q
|}.

(** A timing verdict with the given prices. *)
Definition timing_at (code : string) (hard : bool) (soft : Z)
    (price target1 target2 stop : Q) : ShortTermSignal.t := {|
  ShortTermSignal.stock_code := code;
  ShortTermSignal.stock_name := code;
  ShortTermSignal.trend_conditions_met := hard;
  ShortTermSignal.sentiment_conditions_met := hard;
  ShortTermSignal.structure_conditions_met := hard;
  ShortTermSignal.soft_conditions_met := soft;
  ShortTermSignal.soft_conditions_total := 4;
  ShortTermSignal.current_price := price;
  ShortTermSignal.structure_low := stop;
  ShortTermSignal.first_target := target1;
  ShortTermSignal.second_target := target2;
  ShortTermSignal.stop_loss := stop;
  ShortTermSignal.signal_date := 0
|}.

(** A fundamental verdict with the given total score. *)
Definition fundamental_at (code : string) (score : Q) : RationalInvestmentScore.t := {|
  RationalInvestmentScore.stock_code := code;
  RationalInvestmentScore.stock_name := code;
  RationalInvestmentScore.total_score := score;
  RationalInvestmentScore.component_scores := ∅;
  RationalInvestmentScore.survival_veto := false;
  RationalInvestmentScore.veto_reason := None;
  RationalInvestmentScore.analysis_date := 0
|}.

(** A growth-valuation verdict with the given quadrant and PEG ratio. *)
Definition position_at (code : string) (q : Quadrant) (peg : option Q)
    : GrowthValuationPosition.t := {|
  GrowthValuationPosition.stock_code := code;
  GrowthValuationPosition.stock_name := code;
  GrowthValuationPosition.growth_rate := 0.2;
  GrowthValuationPosition.valuation := 10;
  GrowthValuationPosition.quadrant := q;
  GrowthValuationPosition.peg_ratio := peg;
  GrowthValuationPosition.industry_avg_growth := None;
  GrowthValuationPosition.industry_avg_valuation := None
|}.

(** * The confidence score in the words of the specification

    The four additive terms, then the ceiling. *)







(** * Vocabulary of the join *)

(** [code] has a verdict in each of the three dictionaries. *)
Definition joined
    (rational_dict : gmap string RationalInvestmentScore.t)
    (growth_dict : gmap string GrowthValuationPosition.t)
    (short_term_dict : gmap string ShortTermSignal.t)
    (code : string) : Prop :=
  is_Some (rational_dict !! code) ∧ is_Some (growth_dict !! code)
  ∧ is_Some (short_term_dict !! code).

#[global] Instance joined_dec rational_dict growth_dict short_term_dict code :
  Decision (joined rational_dict growth_dict short_term_dict code).
Proof. unfold joined. apply _. Defined.

(** [signal] is what the loop body builds for [code] from its three
    verdicts. *)
Definition built_from (self : StrategyIntegrator.t) (code : string)
    (rational : RationalInvestmentScore.t)
    (growth : GrowthValuationPosition.t)
    (short_term : ShortTermSignal.t)
    (signal : IntegratedSignal.t) : Prop :=
  let pass_rational :=
    RationalInvestmentScore.is_pass rational
      (StrategyIntegrator.rational_threshold self) in
  let pass_growth :=
    GrowthValuationPosition.is_in_target_quadrant growth
      (StrategyIntegrator.target_quadrant self) in
  let pass_short_term := ShortTermSignal.all_hard_conditions_met short_term in
  IntegratedSignal.stock_code signal = code ∧
  IntegratedSignal.rational_investment signal = rational ∧
  IntegratedSignal.growth_valuation signal = growth ∧
  IntegratedSignal.short_term signal = short_term ∧
  IntegratedSignal.signal_level signal
  = StrategyIntegrator._determine_signal_level
      pass_rational pass_growth pass_short_term ∧
  IntegratedSignal.pass_all_strategies signal
  = pass_rational && pass_growth && pass_short_term ∧
  IntegratedSignal.confidence_score signal
  = StrategyIntegrator._calculate_confidence_score self rational growth
      short_term (pass_rational && pass_growth && pass_short_term) ∧
  ∃ rr, outcome (ShortTermSignal.risk_reward_ratio short_term) = inr rr ∧
        IntegratedSignal.suggested_position signal
        = StrategyIntegrator._calculate_position_size
            (IntegratedSignal.signal_level signal)
            (IntegratedSignal.confidence_score signal) rr.

(** [signal] is built for [code] from the verdicts the dictionaries hold. *)
Definition emitted_for (self : StrategyIntegrator.t)
    (rational_dict : gmap string RationalInvestmentScore.t)
    (growth_dict : gmap string GrowthValuationPosition.t)
    (short_term_dict : gmap string ShortTermSignal.t)
    (code : string) (signal : IntegratedSignal.t) : Prop :=
  ∃ rational growth short_term,
    rational_dict !! code = Some rational ∧
    growth_dict !! code = Some growth ∧
    short_term_dict !! code = Some short_term ∧
    built_from self code rational growth short_term signal.

(** Keys in the order [reverse=True] leaves them: no later key is above an
    earlier one. *)
Definition tuple_ge (a b : Z * Q) : Prop := tuple_lt a b = false.

(** A run with two instruments: "A" passes all three gates, "B" passes
    none. *)
Definition two_fundamentals : list RationalInvestmentScore.t :=
  [fundamental_at "A" 8; fundamental_at "B" 5].

Definition two_positions : list GrowthValuationPosition.t :=
  [position_at "A" BOTTOM_RIGHT None; position_at "B" TOP_LEFT None].

Definition two_timings : list ShortTermSignal.t :=
  [timing_at "A" true 3 10 12 14 9; timing_at "B" false 0 10 12 14 9].

(** * The timing gate and the gate pipeline ([.github/scripts]) *)

(** The builtin [sum] over floats, and [ndarray.mean].  The mean is only
    taken of the twenty closes of a window. *)
Definition float_sum (l : list Q) : Q := foldl Qplus 0%Q l.

Definition np_mean (l : list Q) : Q :=
  (float_sum l / inject_Z (Z.of_nat (length l)))%Q.

(** [gate3_timing(price_df)].  A price frame is given by its column of
    closes, oldest first; [None] is the missing frame.  [close[-1]] is the
    last close and [close[-20:]] the last twenty. *)
Definition gate3_timing (price_df : option (list Q)) : string :=
  match price_df with
  | None => "NO"
  | Some close =>
      if (length close <? 20)%nat then "NO"
      else
        match last close with
        | None => "NO"
        | Some recent =>
            let ma20 := np_mean (drop (length close - 20) close) in
            if Qltb recent (ma20 * 0.95) then "WATCH"
            else if Qltb ma20 recent then "YES"
            else "NO"
        end
  end.

(** One row of the stock list together with what [fetch_daily] and
    [fetch_fundamental] returned for it ([None] when the fetch failed). *)
Module FetchedStock.
Record t : Type := {
  code : string;
  name : string;
  daily : option (list Q);
  funda : option (list (gmap string Q))
}.
End FetchedStock.

(** One row of the decision card. *)
Module DecisionCard.
Record t : Type := {
  code : string;
  name : string;
  gate1_score : Z;
  gate2_priority : Z;
  timing : string
}.

(** The columns [["gate2_priority", "gate1_score"]] the card is sorted by. *)
Definition sort_columns (card : t) : Z * Z :=
  (gate2_priority card, gate1_score card).
End DecisionCard.

(** *** [DataFrame.sort_values(columns, ascending=False)]

    Rows compare by their tuple of column values.  The sort on several
    columns is stable: rows with equal values keep their order. *)

Definition columns_lt (a b : Z * Z) : bool :=
  if (a.1 =? b.1)%Z then (a.2 <? b.2)%Z else (a.1 <? b.1)%Z.

Section SortValues.
Context {A : Type} (columns : A → Z * Z).

Fixpoint insert_descending (x : A) (l : list A) : list A :=
  match l with
  | [] => [x]
  | y :: l' =>
      if columns_lt (columns x) (columns y) then y :: insert_descending x l'
      else x :: y :: l'
  end.

Fixpoint sort_values_descending (l : list A) : list A :=
  match l with
  | [] => []
  | x :: l' => insert_descending x (sort_values_descending l')
  end.
End SortValues.

(** [sort_values] on a frame built from no row: the frame has no column,
    and the first sort column is not found. *)
Inductive KeyError : Set := key_error (column : string).

(** The loop of [run_pipeline] over the rows of the stock list, with the
    results gathered so far. *)
Fixpoint pipeline_loop (stocks : list FetchedStock.t)
    (results : list DecisionCard.t) : list DecisionCard.t :=
  match stocks with
  | [] => results
  | row :: rest =>
      let s1 := gate1_score (FetchedStock.funda row) in
      if s1 <? 6 then pipeline_loop rest results
      else
        let s2 := gate2_priority (FetchedStock.funda row) in
        if s2 =? 0 then pipeline_loop rest results
        else
          let timing := gate3_timing (FetchedStock.daily row) in
          pipeline_loop rest
            (results ++ [{| DecisionCard.code := FetchedStock.code row;
                            DecisionCard.name := FetchedStock.name row;
                            DecisionCard.gate1_score := s1;
                            DecisionCard.gate2_priority := s2;
                            DecisionCard.timing := timing |}])
  end.

(** [run_pipeline], up to the frame it writes to the decision card. *)
Definition run_pipeline (stocks : list FetchedStock.t)
    : KeyError + list DecisionCard.t :=
  let results := pipeline_loop stocks [] in
  match results with
  | [] => inl (key_error "gate2_priority")
  | _ :: _ => inr (sort_values_descending DecisionCard.sort_columns results)
  end.

(** The card a stock gets when it passes the first two gates. *)
Definition card_of (row : FetchedStock.t) : DecisionCard.t := {|
  DecisionCard.code := FetchedStock.code row;
  DecisionCard.name := FetchedStock.name row;
  DecisionCard.gate1_score := gate1_score (FetchedStock.funda row);
  DecisionCard.gate2_priority := gate2_priority (FetchedStock.funda row);
  DecisionCard.timing := gate3_timing (FetchedStock.daily row)
|}.

(** The stock passes the two filters of the pipeline loop. *)
Definition passes_gates (row : FetchedStock.t) : Prop :=
  6 <= gate1_score (FetchedStock.funda row)
  ∧ gate2_priority (FetchedStock.funda row) ≠ 0.

#[global] Instance passes_gates_dec row : Decision (passes_gates row).
Proof. unfold passes_gates. apply _. Defined.

(** Rows in the order [ascending=False] leaves them. *)
Definition columns_ge (a b : Z * Z) : Prop := columns_lt a b = false.

(** A fundamental frame of two rows whose last row passes the first gate
    with 7 points and has a growth of 35 at a multiple of 15. *)
Definition sound_row : gmap string Q :=
  <["资产负债率" := 40%Q]> (<["流动比率" := 2%Q]> (<["ROE" := 15%Q]>
    (<["经营现金流量净额" := 100%Q]> (<["净利润" := 50%Q]>
      (<["净利润同比" := 35%Q]> (<["市盈率" := 15%Q]> ∅)))))).

Definition sound_stock (code : string) : FetchedStock.t := {|
  FetchedStock.code := code;
  FetchedStock.name := code;
  FetchedStock.daily := None;
  FetchedStock.funda := Some [∅; sound_row]
|}.

Definition unfetched_stock (code : string) : FetchedStock.t := {|
  FetchedStock.code := code;
  FetchedStock.name := code;
  FetchedStock.daily := None;
  FetchedStock.funda := None
|}.

(** * Reporting ([src/strategy_integration.py]) *)

(** [Quadrant.value], and the lookup by value [Quadrant(value)], which
    raises [ValueError] ([None] here) on any other string. *)
Definition quadrant_value (q : Quadrant) : string :=
  match q with
  | TOP_RIGHT => "top_right"
  | BOTTOM_RIGHT => "bottom_right"
  | TOP_LEFT => "top_left"
  | BOTTOM_LEFT => "bottom_left"
  end.

Definition Quadrant_of_value (v : string) : option Quadrant :=
  if bool_decide (v = "top_right") then Some TOP_RIGHT
  else if bool_decide (v = "bottom_right") then Some BOTTOM_RIGHT
  else if bool_decide (v = "top_left") then Some TOP_LEFT
  else if bool_decide (v = "bottom_left") then Some BOTTOM_LEFT
  else None.

(** The dictionary [to_dict] returns, each entry as the value it holds
    before it is laid out as text: a percentage is the number of percent, a
    range or a fraction the pair of its numbers, the date the timestamp. *)
Module SignalDict.
Record t : Type := {
  stock_code : string;
  stock_name : string;
  signal_level : Z;
  pass_all_strategies : bool;
  rational_score : Q;
  quadrant : string;
  hard_conditions_met : bool;
  soft_conditions_met : Z * Z;
  suggested_position : Q;
  current_price : Q;
  entry_range : Q * Q;
  targets : list Q;
  stop_loss : Q;
  potential_return : Q * Q;
  risk_reward : Q;
  confidence_score : Q;
  analysis_date : Z
}.
End SignalDict.

(** [IntegratedSignal.to_dict].  The two returns are read in the order of
    the dictionary display: [potential_return] twice, then
    [risk_reward_ratio]. *)
Definition to_dict (self : IntegratedSignal.t) : Div SignalDict.t :=
  let short_term := IntegratedSignal.short_term self in
  pr0 ← ShortTermSignal.potential_return short_term;
  pr1 ← ShortTermSignal.potential_return short_term;
  rr ← ShortTermSignal.risk_reward_ratio short_term;
  mret {|
    SignalDict.stock_code := IntegratedSignal.stock_code self;
    SignalDict.stock_name := IntegratedSignal.stock_name self;
    SignalDict.signal_level := value (IntegratedSignal.signal_level self);
    SignalDict.pass_all_strategies := IntegratedSignal.pass_all_strategies self;
    SignalDict.rational_score :=
      RationalInvestmentScore.total_score (IntegratedSignal.rational_investment self);
    SignalDict.quadrant :=
      quadrant_value
        (GrowthValuationPosition.quadrant (IntegratedSignal.growth_valuation self));
    SignalDict.hard_conditions_met :=
      ShortTermSignal.all_hard_conditions_met short_term;
    SignalDict.soft_conditions_met :=
      (ShortTermSignal.soft_conditions_met short_term,
       ShortTermSignal.soft_conditions_total short_term);
    SignalDict.suggested_position :=
      (IntegratedSignal.suggested_position self * 100)%Q;
    SignalDict.current_price := ShortTermSignal.current_price short_term;
    SignalDict.entry_range := IntegratedSignal.entry_price_range self;
    SignalDict.targets := IntegratedSignal.targets self;
    SignalDict.stop_loss := IntegratedSignal.stop_loss self;
    SignalDict.potential_return := ((pr0.1 * 100)%Q, (pr1.2 * 100)%Q);
    SignalDict.risk_reward := rr;
    SignalDict.confidence_score := IntegratedSignal.confidence_score self;
    SignalDict.analysis_date := IntegratedSignal.analysis_date self
  |}.

(** [sum(1 for s in signals if test(s))]. *)
Definition count_if {A : Type} (test : A → bool) (l : list A) : Z :=
  foldl (λ n x, if test x then n + 1 else n) 0 l.

(** The builtin [max] over a sequence that is not empty, from its first
    element: a later element replaces the maximum only when it is strictly
    greater. *)
Definition py_max_from (first : Q) (rest : list Q) : Q :=
  foldl (λ m x, if Qltb m x then x else m) first rest.

(** What [generate_report] prints, before it is laid out as text: the
    message for an empty list, or the counts, the dictionaries of the
    first ten signals and the three statistics. *)
Module Report.
Inductive t : Type :=
| no_signals
| summary (total level1_count level2_count level3_count pass_all_count : Z)
    (listed : list SignalDict.t)
    (avg_rational_score avg_confidence max_confidence : Q).
End Report.

(** [to_dict] of each signal of the list, in order. *)
Fixpoint to_dicts (signals : list IntegratedSignal.t) : Div (list SignalDict.t) :=
  match signals with
  | [] => mret []
  | signal :: rest =>
      data ← to_dict signal;
      others ← to_dicts rest;
      mret (data :: others)
  end.

(** [StrategyIntegrator.generate_report]. *)
Definition generate_report (signals : list IntegratedSignal.t) : Div Report.t :=
  match signals with
  | [] => mret Report.no_signals
  | first :: rest =>
      let level1_count :=
        count_if (λ s, bool_decide (IntegratedSignal.signal_level s = LEVEL_1)) signals in
      let level2_count :=
        count_if (λ s, bool_decide (IntegratedSignal.signal_level s = LEVEL_2)) signals in
      let level3_count :=
        count_if (λ s, bool_decide (IntegratedSignal.signal_level s = LEVEL_3)) signals in
      let pass_all_count := count_if IntegratedSignal.pass_all_strategies signals in
      listed ← to_dicts (take 10 signals);
      avg_rational_score ←
        truediv
          (float_sum ((λ s, RationalInvestmentScore.total_score
                              (IntegratedSignal.rational_investment s)) <$> signals))
          (inject_Z (Z.of_nat (length signals)));
      avg_confidence ←
        truediv (float_sum (IntegratedSignal.confidence_score <$> signals))
          (inject_Z (Z.of_nat (length signals)));
      let max_confidence :=
        py_max_from (IntegratedSignal.confidence_score first)
          (IntegratedSignal.confidence_score <$> rest) in
      mret (Report.summary (Z.of_nat (length signals)) level1_count level2_count
              level3_count pass_all_count listed avg_rational_score
              avg_confidence max_confidence)
  end.

(** A position whose two industry baselines are known and not zero. *)
Definition benchmarked_position : GrowthValuationPosition.t := {|
  GrowthValuationPosition.stock_code := "600000";
  GrowthValuationPosition.stock_name := "benchmarked";
  GrowthValuationPosition.growth_rate := 0.2;
  GrowthValuationPosition.valuation := 10;
  GrowthValuationPosition.quadrant := BOTTOM_RIGHT;
  GrowthValuationPosition.peg_ratio := Some 0.5%Q;
  GrowthValuationPosition.industry_avg_growth := Some 0.1%Q;
  GrowthValuationPosition.industry_avg_valuation := Some 15%Q
|}.

(** [signal] is returned by the loop body for [code], run at some reading
    of the clock on the verdicts the dictionaries hold. *)
Definition built_by (self : StrategyIntegrator.t) (clock : nat → Z)
    (rational_dict : gmap string RationalInvestmentScore.t)
    (growth_dict : gmap string GrowthValuationPosition.t)
    (short_term_dict : gmap string ShortTermSignal.t)
    (signal : IntegratedSignal.t) : Prop :=
  ∃ n code rational growth short_term,
    rational_dict !! code = Some rational ∧
    growth_dict !! code = Some growth ∧
    short_term_dict !! code = Some short_term ∧
    outcome (StrategyIntegrator.build_signal self (clock n) code
               rational growth short_term) = inr signal.

(** * Properties *)

(** ** Comparisons on rationals *)

Lemma Qltb_true (a b : Q) : Qltb a b = true ↔ (a < b)%Q.
Proof.
  unfold Qltb. rewrite Qlt_alt.
  destruct (a ?= b)%Q; split; intros H; congruence.
Qed.

Lemma Qltb_false (a b : Q) : Qltb a b = false ↔ (b <= a)%Q.
Proof.
  destruct (Qltb a b) eqn:E.
  - apply Qltb_true in E. split; [discriminate | intros; lra].
  - split; [intros _ | reflexivity].
    destruct (Qlt_le_dec a b) as [Hlt | Hle]; [| exact Hle].
    apply Qltb_true in Hlt. congruence.
Qed.

Lemma Qeq_bool_false (a b : Q) : Qeq_bool a b = false ↔ ¬ (a == b)%Q.
Proof.
  split.
  - intros H Heq. apply Qeq_bool_iff in Heq. congruence.
  - intros H. destruct (Qeq_bool a b) eqn:E; [| reflexivity].
    apply Qeq_bool_iff in E. contradiction.
Qed.

(** Split on every float comparison in the goal, keeping the order fact. *)
Ltac case_Qltb :=
  repeat match goal with
  | |- context [Qltb ?a ?b] =>
      let E := fresh "E" in
      destruct (Qltb a b) eqn:E;
      [apply Qltb_true in E | apply Qltb_false in E]
  end.

(** The quotient by the literal [10.0] is a product. *)
Ltac div10 := unfold Qdiv; change (/ 10)%Q with (1 # 10)%Q.

Lemma py_min_le_l (a b : Q) : (py_min a b <= a)%Q.
Proof. unfold py_min. case_Qltb; lra. Qed.

Lemma py_min_le_r (a b : Q) : (py_min a b <= b)%Q.
Proof. unfold py_min. case_Qltb; lra. Qed.

Lemma py_min_glb (a b c : Q) : (c <= a)%Q → (c <= b)%Q → (c <= py_min a b)%Q.
Proof. unfold py_min. intros. case_Qltb; lra. Qed.


(** ** The fundamental gate *)

Lemma gate1_score_last (rows : list (gmap string Q)) (row : gmap string Q) :
  gate1_score (Some (rows ++ [row])) = Z.max (gate1_raw_total row) 0.
Proof.
  unfold gate1_score. rewrite last_snoc.
  destruct (rows ++ [row]) eqn:E; [| reflexivity].
  destruct rows; discriminate.
Qed.

(** C8.  The score of the fundamental gate is never negative, whatever the
    frame of snapshots: it is the raw total of the last row raised to zero
    (a raw total can be negative, as for a row with no known column).  A
    missing frame and an empty frame score exactly 0. *)
Theorem gate1_score_clamped :
  (∀ funda, 0 <= gate1_score funda) ∧
  (∀ rows row,
     gate1_score (Some (rows ++ [row])) = Z.max (gate1_raw_total row) 0) ∧
  gate1_raw_total ∅ = -2 ∧
  gate1_score None = 0 ∧
  gate1_score (Some []) = 0.
Proof.
  split; [| split; [exact gate1_score_last | repeat split]].
  intros [rows |]; [| reflexivity].
  destruct rows as [| r rows'] using rev_ind; [reflexivity |].
  rewrite gate1_score_last. lia.
Qed.

(** ** The growth-value gate *)

Lemma gate2_priority_last (rows : list (gmap string Q)) (row : gmap string Q) :
  (2 <= length rows)%nat → last rows = Some row →
  gate2_priority (Some rows) = gate2_decide (gate2_growth row) (gate2_pe row).
Proof.
  intros Hlen Hlast. unfold gate2_priority. rewrite Hlast.
  destruct (length rows <? 2)%nat eqn:E; [| reflexivity].
  apply Nat.ltb_lt in E. lia.
Qed.

Lemma gate2_decide_nonpositive (growth pe : Q) :
  (growth <= 0)%Q → gate2_decide growth pe = 0.
Proof.
  intros H. unfold gate2_decide.
  destruct (Qltb 0 growth) eqn:E; [| reflexivity].
  apply Qltb_true in E. lra.
Qed.

Lemma gate2_decide_monotone (g1 g2 pe : Q) :
  (0 < g1)%Q → (g1 <= g2)%Q → gate2_decide g1 pe <= gate2_decide g2 pe.
Proof.
  intros Hpos Hle. unfold gate2_decide.
  case_Qltb; cbn; try lia; lra.
Qed.

Lemma gate2_decide_pe_proper (g pe1 pe2 : Q) :
  (pe1 == pe2)%Q → gate2_decide g pe1 = gate2_decide g pe2.
Proof.
  intros Heq. unfold gate2_decide.
  case_Qltb; cbn; try reflexivity; lra.
Qed.

Lemma gate2_decide_top (growth pe : Q) :
  gate2_decide growth pe = 3 ↔ (30 < growth)%Q ∧ (pe < 20)%Q.
Proof.
  unfold gate2_decide.
  case_Qltb; cbn; split; try discriminate; try reflexivity;
    try (intros [? ?]; lra); try (intros _; split; lra).
Qed.

Lemma gate2_decide_high_growth_only (growth pe : Q) :
  (30 < growth)%Q → (20 <= pe)%Q → gate2_decide growth pe = 2.
Proof.
  intros Hg Hpe. unfold gate2_decide.
  case_Qltb; cbn; try reflexivity; lra.
Qed.

Lemma gate2_decide_range (growth pe : Q) : 0 <= gate2_decide growth pe <= 3.
Proof. unfold gate2_decide. case_Qltb; cbn; lia. Qed.

(** C7.  The growth-value gate gives priority 0 to a missing frame, to
    every frame with fewer than two snapshots, and to every frame whose
    growth figure is zero or negative, whatever the valuation.  With two
    snapshots or more: at a fixed valuation the priority of a positive
    growth does not decrease when the growth increases; priority 3 is given
    exactly when growth exceeds 30 and the valuation is under 20; growth
    above 30 at a valuation of 20 or more gets 2; no priority exceeds 3. *)
Theorem gate2_priority_tiers :
  gate2_priority None = 0 ∧
  (∀ rows, (length rows < 2)%nat → gate2_priority (Some rows) = 0) ∧
  (∀ rows row,
     last rows = Some row → (gate2_growth row <= 0)%Q →
     gate2_priority (Some rows) = 0) ∧
  (∀ rows1 row1 rows2 row2,
     (2 <= length rows1)%nat → (2 <= length rows2)%nat →
     last rows1 = Some row1 → last rows2 = Some row2 →
     (gate2_pe row1 == gate2_pe row2)%Q →
     (0 < gate2_growth row1)%Q → (gate2_growth row1 <= gate2_growth row2)%Q →
     gate2_priority (Some rows1) <= gate2_priority (Some rows2)) ∧
  (∀ rows row,
     (2 <= length rows)%nat → last rows = Some row →
     (gate2_priority (Some rows) = 3
      ↔ (30 < gate2_growth row)%Q ∧ (gate2_pe row < 20)%Q)) ∧
  (∀ rows row,
     (2 <= length rows)%nat → last rows = Some row →
     (30 < gate2_growth row)%Q → (20 <= gate2_pe row)%Q →
     gate2_priority (Some rows) = 2) ∧
  (∀ funda, 0 <= gate2_priority funda <= 3).
Proof.
  split; [reflexivity |].
  split.
  { intros rows Hlen. unfold gate2_priority.
    apply Nat.ltb_lt in Hlen. by rewrite Hlen. }
  split.
  { intros rows row Hlast Hg. unfold gate2_priority. rewrite Hlast.
    rewrite gate2_decide_nonpositive by exact Hg.
    by destruct (length rows <? 2)%nat. }
  split.
  { intros rows1 row1 rows2 row2 H1 H2 L1 L2 Hpe Hpos Hle.
    rewrite (gate2_priority_last rows1 row1), (gate2_priority_last rows2 row2)
      by assumption.
    rewrite (gate2_decide_pe_proper _ _ _ Hpe).
    by apply gate2_decide_monotone. }
  split.
  { intros rows row Hlen Hlast.
    rewrite (gate2_priority_last rows row) by assumption.
    apply gate2_decide_top. }
  split.
  { intros rows row Hlen Hlast Hg Hpe.
    rewrite (gate2_priority_last rows row) by assumption.
    by apply gate2_decide_high_growth_only. }
  intros [rows |]; [| cbn; lia].
  unfold gate2_priority.
  destruct (length rows <? 2)%nat; [lia |].
  destruct (last rows); [apply gate2_decide_range | lia].
Qed.

Lemma gate2_priority_tiers_witness :
  gate2_priority (Some [shrinking_row]) = 0 ∧
  gate2_priority (Some [∅; shrinking_row]) = 0 ∧
  gate2_priority (Some [∅; dear_growth_row])
    <= gate2_priority (Some [∅; ∅; dear_growth_row]) ∧
  gate2_priority (Some [∅; cheap_growth_row]) = 3 ∧
  gate2_priority (Some [∅; dear_growth_row]) = 2.
Proof.
  destruct gate2_priority_tiers as (_ & Hfew & Hneg & Hmono & Htop & Hhigh & _).
  split; [apply Hfew; cbn; lia |].
  split; [apply (Hneg _ shrinking_row); [reflexivity | by vm_compute] |].
  split.
  { apply (Hmono _ dear_growth_row _ dear_growth_row);
      try (cbn; lia); try reflexivity; by vm_compute. }
  split.
  { apply (Htop _ cheap_growth_row); [cbn; lia | reflexivity |].
    split; by vm_compute. }
  apply (Hhigh _ dear_growth_row); [cbn; lia | reflexivity | | ]; by vm_compute.
Defined.

(** ** Relative position *)

(** What [get_relative_position] does: the differences when both baselines
    are known and neither is zero, the neutral pair when one is unknown. *)
Lemma get_relative_position_nonzero (p : GrowthValuationPosition.t) (g v : Q) :
  GrowthValuationPosition.industry_avg_growth p = Some g →
  GrowthValuationPosition.industry_avg_valuation p = Some v →
  ¬ (g == 0)%Q → ¬ (v == 0)%Q →
  GrowthValuationPosition.get_relative_position p
  = ((GrowthValuationPosition.growth_rate p - g)%Q,
     (GrowthValuationPosition.valuation p - v)%Q).
Proof.
  intros Hg Hv Hg0 Hv0. unfold GrowthValuationPosition.get_relative_position.
  rewrite Hg, Hv. unfold float_truthy.
  apply Qeq_bool_false in Hg0, Hv0. by rewrite Hg0, Hv0.
Qed.

Lemma get_relative_position_unknown (p : GrowthValuationPosition.t) :
  GrowthValuationPosition.industry_avg_growth p = None
  ∨ GrowthValuationPosition.industry_avg_valuation p = None →
  GrowthValuationPosition.get_relative_position p = (0%Q, 0%Q).
Proof.
  unfold GrowthValuationPosition.get_relative_position.
  intros [H | H]; rewrite H; [reflexivity |].
  by destruct (GrowthValuationPosition.industry_avg_growth p).
Qed.

(** C9.  At a position whose two industry baselines are both known, the
    growth baseline being [0.0], [get_relative_position] returns the
    neutral pair and not the pair of differences: the first difference is
    0.2 and the second is -5. *)
Theorem get_relative_position_zero_baseline :
  GrowthValuationPosition.industry_avg_growth flat_industry_position = Some 0%Q ∧
  GrowthValuationPosition.industry_avg_valuation flat_industry_position = Some 15%Q ∧
  GrowthValuationPosition.get_relative_position flat_industry_position
  = (0%Q, 0%Q) ∧
  (GrowthValuationPosition.growth_rate flat_industry_position - 0 == 0.2)%Q ∧
  (GrowthValuationPosition.valuation flat_industry_position - 15 == -5)%Q.
Proof. repeat split. Qed.

(** ** Derived properties of a timing verdict *)

Lemma truediv_positive (a b : Q) :
  (0 < b)%Q → truediv a b = ([b], inr (a / b)%Q).
Proof.
  intros Hb. unfold truediv.
  destruct (Qeq_bool b 0) eqn:E; [| reflexivity].
  apply Qeq_bool_iff in E. lra.
Qed.

(** The value of [risk_reward_ratio], which never faults. *)
Lemma risk_reward_ratio_run (s : ShortTermSignal.t) :
  ∃ rr, outcome (ShortTermSignal.risk_reward_ratio s) = inr rr
        ∧ Forall (Qlt 0) (denominators (ShortTermSignal.risk_reward_ratio s)).
Proof.
  unfold ShortTermSignal.risk_reward_ratio.
  destruct (Qltb 0 _) eqn:E.
  - apply Qltb_true in E. rewrite truediv_positive by exact E.
    eexists. split; [reflexivity |]. by constructor.
  - eexists. split; [reflexivity | constructor].
Qed.

Lemma potential_return_run (s : ShortTermSignal.t) :
  ∃ pr, outcome (ShortTermSignal.potential_return s) = inr pr
        ∧ Forall (Qlt 0) (denominators (ShortTermSignal.potential_return s)).
Proof.
  unfold ShortTermSignal.potential_return.
  destruct (Qltb 0 _) eqn:E.
  - apply Qltb_true in E. rewrite !truediv_positive by exact E.
    eexists. split; [reflexivity |]. cbn. by repeat constructor.
  - eexists. split; [reflexivity | constructor].
Qed.

(** C6.  For every timing verdict: [potential_return] is (0, 0) when the
    current price is not positive; [risk_reward_ratio] is 0 when the
    current price minus the stop-loss is not positive, that is when the
    stop-loss is at or above the current price; both always return a value
    and every denominator either of them divides by is positive, so
    neither can raise a division fault. *)
Theorem derived_returns_never_fault (s : ShortTermSignal.t) :
  ((ShortTermSignal.current_price s <= 0)%Q →
   ShortTermSignal.potential_return s = ([], inr (0%Q, 0%Q))) ∧
  ((ShortTermSignal.current_price s - ShortTermSignal.stop_loss s <= 0)%Q →
   ShortTermSignal.risk_reward_ratio s = ([], inr 0%Q)) ∧
  ((ShortTermSignal.current_price s <= ShortTermSignal.stop_loss s)%Q →
   ShortTermSignal.risk_reward_ratio s = ([], inr 0%Q)) ∧
  (∃ pr, outcome (ShortTermSignal.potential_return s) = inr pr) ∧
  (∃ rr, outcome (ShortTermSignal.risk_reward_ratio s) = inr rr) ∧
  Forall (Qlt 0) (denominators (ShortTermSignal.potential_return s)) ∧
  Forall (Qlt 0) (denominators (ShortTermSignal.risk_reward_ratio s)).
Proof.
  assert (Hrr : (ShortTermSignal.current_price s - ShortTermSignal.stop_loss s <= 0)%Q →
                ShortTermSignal.risk_reward_ratio s = ([], inr 0%Q)).
  { intros H. unfold ShortTermSignal.risk_reward_ratio.
    apply Qltb_false in H. by rewrite H. }
  split.
  { intros H. unfold ShortTermSignal.potential_return.
    apply Qltb_false in H. by rewrite H. }
  split; [exact Hrr |].
  split; [intros H; apply Hrr; lra |].
  destruct (potential_return_run s) as (pr & Hpr & Hdp).
  destruct (risk_reward_ratio_run s) as (rr & Hr & Hdr).
  eauto 10.
Qed.

Lemma derived_returns_never_fault_witness :
  ShortTermSignal.potential_return (timing_at "600000" true 3 0 12 14 9)
  = ([], inr (0%Q, 0%Q)) ∧
  ShortTermSignal.risk_reward_ratio (timing_at "600000" true 3 0 12 14 9)
  = ([], inr 0%Q) ∧
  ShortTermSignal.risk_reward_ratio (timing_at "600000" true 3 0 12 14 9)
  = ([], inr 0%Q).
Proof.
  destruct (derived_returns_never_fault (timing_at "600000" true 3 0 12 14 9))
    as (Hpr & Hrr & Hstop & _).
  split; [apply Hpr; by vm_compute |].
  split; [apply Hrr; by vm_compute | apply Hstop; by vm_compute].
Defined.

(** ** Tier, confidence and position size *)

Lemma _determine_signal_level_table (pass_rational pass_growth pass_short_term : bool) :
  (pass_rational = true ∧ pass_growth = true ∧ pass_short_term = true →
   StrategyIntegrator._determine_signal_level
     pass_rational pass_growth pass_short_term = LEVEL_1) ∧
  (pass_rational = false ∧ pass_growth = true ∧ pass_short_term = true →
   StrategyIntegrator._determine_signal_level
     pass_rational pass_growth pass_short_term = LEVEL_2) ∧
  (pass_growth = false ∨ pass_short_term = false →
   StrategyIntegrator._determine_signal_level
     pass_rational pass_growth pass_short_term = LEVEL_3).
Proof.
  destruct pass_rational, pass_growth, pass_short_term; cbn;
    repeat split; try reflexivity;
    try (intros (? & ? & ?); discriminate);
    intros [? | ?]; discriminate.
Qed.


Lemma confidence_le_10 (self : StrategyIntegrator.t)
    (rational : RationalInvestmentScore.t) (growth : GrowthValuationPosition.t)
    (short_term : ShortTermSignal.t) (pass_all : bool) :
  (StrategyIntegrator._calculate_confidence_score
     self rational growth short_term pass_all <= 10)%Q.
Proof. apply py_min_le_r. Qed.





Lemma base_position_table :
  StrategyIntegrator.base_position LEVEL_1 = 0.04%Q ∧
  StrategyIntegrator.base_position LEVEL_2 = 0.02%Q ∧
  StrategyIntegrator.base_position LEVEL_3 = 0.01%Q.
Proof. repeat split. Qed.

Lemma base_position_range (signal_level : SignalLevel) :
  (0 < StrategyIntegrator.base_position signal_level)%Q
  ∧ (StrategyIntegrator.base_position signal_level <= 0.04)%Q.
Proof. destruct signal_level; split; by vm_compute. Qed.


Lemma rr_multiplier_range (risk_reward_ratio : Q) :
  (0 < StrategyIntegrator.rr_multiplier risk_reward_ratio)%Q
  ∧ (StrategyIntegrator.rr_multiplier risk_reward_ratio <= 1.2)%Q.
Proof. unfold StrategyIntegrator.rr_multiplier. case_Qltb; lra. Qed.


Lemma final_position_le (signal_level : SignalLevel)
    (confidence_score risk_reward_ratio : Q) :
  (0 <= confidence_score)%Q → (confidence_score <= 10)%Q →
  (StrategyIntegrator.final_position
     signal_level confidence_score risk_reward_ratio <= 0.048)%Q.
Proof.
  intros H0 H10. unfold StrategyIntegrator.final_position,
    StrategyIntegrator.rr_multiplier. div10.
  destruct base_position_table as (B1 & B2 & B3).
  destruct signal_level; rewrite ?B1, ?B2, ?B3; case_Qltb; lra.
Qed.




(** C10.  For a confidence score between 0 and 10 the position is at most
    0.048: the base fraction is at most 0.04, confidence/10 at most 1 and
    the risk/reward multiplier at most 1.2.  The cap of 0.08 is then never
    reached, and the returned value is the product before the cap. *)
Theorem position_cap_never_binds (signal_level : SignalLevel)
    (confidence_score risk_reward_ratio : Q) :
  (0 <= confidence_score)%Q → (confidence_score <= 10)%Q →
  (StrategyIntegrator._calculate_position_size
     signal_level confidence_score risk_reward_ratio <= 0.048)%Q ∧
  StrategyIntegrator._calculate_position_size
    signal_level confidence_score risk_reward_ratio
  = StrategyIntegrator.final_position
      signal_level confidence_score risk_reward_ratio ∧
  (StrategyIntegrator.base_position signal_level <= 0.04)%Q ∧
  (confidence_score / 10 <= 1)%Q ∧
  (StrategyIntegrator.rr_multiplier risk_reward_ratio <= 1.2)%Q.
Proof.
  intros H0 H10.
  pose proof (final_position_le signal_level _ risk_reward_ratio H0 H10) as Hle.
  assert (Heq : StrategyIntegrator._calculate_position_size
                  signal_level confidence_score risk_reward_ratio
                = StrategyIntegrator.final_position
                    signal_level confidence_score risk_reward_ratio).
  { unfold StrategyIntegrator._calculate_position_size, py_min.
    destruct (Qltb 0.08 _) eqn:E; [| reflexivity].
    apply Qltb_true in E. lra. }
  split; [by rewrite Heq |].
  split; [exact Heq |].
  split; [apply base_position_range |].
  split; [div10; lra | apply rr_multiplier_range].
Qed.

Lemma position_cap_never_binds_witness :
  (StrategyIntegrator._calculate_position_size LEVEL_1 10 3 <= 0.048)%Q ∧
  (StrategyIntegrator._calculate_position_size LEVEL_1 10 3 == 0.048)%Q.
Proof.
  destruct (position_cap_never_binds LEVEL_1 10 3) as (Hle & Heq & _);
    [by vm_compute | by vm_compute |].
  split; [exact Hle | rewrite Heq; by vm_compute].
Defined.

(** ** The dictionaries *)

Lemma dict_by_code_lookup {V : Type} (code : V → string) (l : list V) (k : string) :
  match StrategyIntegrator.dict_by_code code l !! k with
  | Some x => x ∈ l ∧ code x = k
  | None => k ∉ code <$> l
  end.
Proof.
  unfold StrategyIntegrator.dict_by_code.
  induction l as [| y l IH] using rev_ind.
  - cbn. rewrite lookup_empty. apply not_elem_of_nil.
  - rewrite foldl_snoc. destruct (decide (code y = k)) as [<- | Hne].
    + rewrite lookup_insert_eq. split; [| reflexivity].
      apply elem_of_app. right. apply list_elem_of_singleton. reflexivity.
    + rewrite lookup_insert_ne by exact Hne.
      destruct (foldl _ ∅ l !! k) as [x |].
      * destruct IH as [Hin Hk]. split; [| exact Hk].
        apply elem_of_app. by left.
      * rewrite fmap_app. intros Hin. apply elem_of_app in Hin as [Hin | Hin].
        -- contradiction.
        -- cbn in Hin. apply list_elem_of_singleton in Hin. congruence.
Qed.

Lemma dict_by_code_is_Some {V : Type} (code : V → string) (l : list V) (k : string) :
  is_Some (StrategyIntegrator.dict_by_code code l !! k) ↔ k ∈ code <$> l.
Proof.
  pose proof (dict_by_code_lookup code l k) as H.
  destruct (StrategyIntegrator.dict_by_code code l !! k) as [x |].
  - destruct H as [Hin Hk]. split; [intros _ | eauto].
    by apply (list_elem_of_fmap_2' code l x).
  - split; [intros [? ?]; discriminate | contradiction].
Qed.

(** ** The loop *)

Lemma Div_bind_inr {A B : Type} (log : list Q) (x : A) (f : A → Div B) :
  ((log, inr x) : Div A) ≫= f = (log ++ (f x).1, (f x).2).
Proof. unfold mbind, Div_bind. by destruct (f x). Qed.

Lemma build_signal_run (self : StrategyIntegrator.t) (now : Z) (code : string)
    (rational : RationalInvestmentScore.t) (growth : GrowthValuationPosition.t)
    (short_term : ShortTermSignal.t) :
  ∃ signal,
    outcome (StrategyIntegrator.build_signal
               self now code rational growth short_term) = inr signal
    ∧ Forall (Qlt 0)
        (denominators (StrategyIntegrator.build_signal
                         self now code rational growth short_term))
    ∧ built_from self code rational growth short_term signal.
Proof.
  destruct (risk_reward_ratio_run short_term) as (rr & Hrr & Hpos).
  unfold StrategyIntegrator.build_signal.
  destruct (ShortTermSignal.risk_reward_ratio short_term) as [log [e | rr']] eqn:E;
    cbn in Hrr, Hpos; [discriminate |].
  injection Hrr as ->.
  rewrite Div_bind_inr. cbn. rewrite app_nil_r.
  eexists. split; [reflexivity |]. split; [exact Hpos |].
  unfold built_from. cbn. repeat split.
  exists rr. rewrite E. split; reflexivity.
Qed.

Lemma integrate_loop_run (self : StrategyIntegrator.t) (clock : nat → Z)
    (rational_dict : gmap string RationalInvestmentScore.t)
    (growth_dict : gmap string GrowthValuationPosition.t)
    (short_term_dict : gmap string ShortTermSignal.t)
    (codes : list string) (acc : list IntegratedSignal.t) :
  ∃ signals,
    outcome (StrategyIntegrator.integrate_loop self clock rational_dict
               growth_dict short_term_dict codes acc) = inr (acc ++ signals)
    ∧ Forall (Qlt 0)
        (denominators (StrategyIntegrator.integrate_loop self clock
                         rational_dict growth_dict short_term_dict codes acc))
    ∧ Forall2 (emitted_for self rational_dict growth_dict short_term_dict)
        (filter (joined rational_dict growth_dict short_term_dict) codes)
        signals.
Proof.
  revert acc. induction codes as [| code rest IH]; intros acc.
  - exists []. cbn. rewrite app_nil_r. repeat split; constructor.
  - cbn [StrategyIntegrator.integrate_loop].
    destruct (rational_dict !! code) as [rational |] eqn:Er;
      [destruct (growth_dict !! code) as [growth |] eqn:Eg;
       [destruct (short_term_dict !! code) as [short_term |] eqn:Es |] |].
    + destruct (build_signal_run self (clock (length acc)) code
                  rational growth short_term) as (signal & Hout & Hden & Hbuilt).
      destruct (StrategyIntegrator.build_signal _ _ _ _ _ _) as [log r].
      cbn in Hout, Hden. subst r.
      destruct (IH (acc ++ [signal])) as (signals & Hout' & Hden' & Hall).
      rewrite Div_bind_inr.
      exists (signal :: signals). unfold outcome, denominators in *.
      split; [| split].
      * cbn. rewrite Hout'. by rewrite <- app_assoc.
      * cbn. apply Forall_app. by split.
      * rewrite filter_cons_True.
        -- constructor; [| exact Hall]. by exists rational, growth, short_term.
        -- unfold joined. rewrite Er, Eg, Es. eauto.
    + destruct (IH acc) as (signals & Hout' & Hden' & Hall).
      exists signals. split; [exact Hout' |]. split; [exact Hden' |].
      rewrite filter_cons_False; [exact Hall |].
      unfold joined. rewrite Es. intros (_ & _ & [? ?]). discriminate.
    + destruct (IH acc) as (signals & Hout' & Hden' & Hall).
      exists signals. split; [exact Hout' |]. split; [exact Hden' |].
      rewrite filter_cons_False; [exact Hall |].
      unfold joined. rewrite Eg. intros (_ & [? ?] & _). discriminate.
    + destruct (IH acc) as (signals & Hout' & Hden' & Hall).
      exists signals. split; [exact Hout' |]. split; [exact Hden' |].
      rewrite filter_cons_False; [exact Hall |].
      unfold joined. rewrite Er. intros ([? ?] & _). discriminate.
Qed.

(** ** The sort *)

Section SortReverseFacts.
Context {A : Type} (key : A → Z * Q).

Lemma tuple_lt_asym (a b : Z * Q) : tuple_lt a b = true → tuple_ge b a.
Proof.
  unfold tuple_ge, tuple_lt. destruct a as [a1 a2], b as [b1 b2]. cbn.
  destruct (a1 =? b1)%Z eqn:E1, (b1 =? a1)%Z eqn:E2;
    rewrite ?Z.eqb_eq, ?Z.eqb_neq, ?Z.ltb_lt, ?Z.ltb_ge, ?Qltb_true, ?Qltb_false in *;
    intros; try lia; lra.
Qed.

Lemma tuple_ge_trans (a b c : Z * Q) : tuple_ge a b → tuple_ge b c → tuple_ge a c.
Proof.
  unfold tuple_ge, tuple_lt. destruct a as [a1 a2], b as [b1 b2], c as [c1 c2]. cbn.
  destruct (a1 =? b1)%Z eqn:E1, (b1 =? c1)%Z eqn:E2, (a1 =? c1)%Z eqn:E3;
    rewrite ?Z.eqb_eq, ?Z.eqb_neq, ?Z.ltb_lt, ?Z.ltb_ge, ?Qltb_true, ?Qltb_false in *;
    intros; try lia; lra.
Qed.

Lemma insert_reverse_perm (x : A) (l : list A) :
  insert_reverse key x l ≡ₚ x :: l.
Proof.
  induction l as [| y l IH]; cbn; [reflexivity |].
  destruct (tuple_lt (key x) (key y)); [| reflexivity].
  rewrite IH. apply perm_swap.
Qed.

Lemma sort_reverse_perm (l : list A) : sort_reverse key l ≡ₚ l.
Proof.
  induction l as [| x l IH]; cbn; [reflexivity |].
  rewrite insert_reverse_perm. by rewrite IH.
Qed.

Lemma insert_reverse_sorted (x : A) (l : list A) :
  StronglySorted (λ a b, tuple_ge (key a) (key b)) l →
  StronglySorted (λ a b, tuple_ge (key a) (key b)) (insert_reverse key x l).
Proof.
  induction 1 as [| y l Hsorted IH Hall]; cbn.
  - repeat constructor.
  - destruct (tuple_lt (key x) (key y)) eqn:E.
    + constructor; [exact IH |].
      rewrite insert_reverse_perm. constructor; [| exact Hall].
      by apply tuple_lt_asym.
    + constructor; [by constructor |].
      constructor; [exact E |].
      eapply Forall_impl; [exact Hall |].
      intros z Hz. by apply (tuple_ge_trans _ (key y)).
Qed.

Lemma sort_reverse_sorted (l : list A) :
  StronglySorted (λ a b, tuple_ge (key a) (key b)) (sort_reverse key l).
Proof.
  induction l as [| x l IH]; cbn; [constructor |].
  by apply insert_reverse_sorted.
Qed.
End SortReverseFacts.

(** ** [integrate_strategies] *)

Section Integrate.
Context (self : StrategyIntegrator.t).
Context (iter_order : gset string → list string) (clock : nat → Z).
Context (rational_scores : list RationalInvestmentScore.t).
Context (growth_positions : list GrowthValuationPosition.t).
Context (short_term_signals : list ShortTermSignal.t).

Local Abbreviation rational_dict :=
  (StrategyIntegrator.dict_by_code RationalInvestmentScore.stock_code
     rational_scores).
Local Abbreviation growth_dict :=
  (StrategyIntegrator.dict_by_code GrowthValuationPosition.stock_code
     growth_positions).
Local Abbreviation short_term_dict :=
  (StrategyIntegrator.dict_by_code ShortTermSignal.stock_code
     short_term_signals).
Local Abbreviation all_codes :=
  (dom rational_dict ∪ dom growth_dict ∪ dom short_term_dict : gset string).

(** The run never faults; its result is the sorted list of the signals
    built, in iteration order, for the codes found in all three
    dictionaries. *)
Lemma integrate_strategies_run :
  ∃ signals,
    outcome (StrategyIntegrator.integrate_strategies self iter_order clock
               rational_scores growth_positions short_term_signals)
    = inr (sort_reverse IntegratedSignal.sort_key signals)
    ∧ Forall (Qlt 0)
        (denominators (StrategyIntegrator.integrate_strategies self iter_order
                         clock rational_scores growth_positions
                         short_term_signals))
    ∧ Forall2 (emitted_for self rational_dict growth_dict short_term_dict)
        (filter (joined rational_dict growth_dict short_term_dict)
           (iter_order all_codes))
        signals.
Proof.
  unfold StrategyIntegrator.integrate_strategies. cbv zeta.
  destruct (integrate_loop_run self clock rational_dict growth_dict
              short_term_dict (iter_order all_codes) [])
    as (signals & Hout & Hden & Hall).
  destruct (StrategyIntegrator.integrate_loop _ _ _ _ _ _ _) as [log r].
  unfold outcome, denominators in *. cbn in Hout, Hden. subst r.
  rewrite Div_bind_inr. cbn. rewrite app_nil_r.
  exists signals. by repeat split.
Qed.

Lemma joined_iff (code : string) :
  joined rational_dict growth_dict short_term_dict code
  ↔ code ∈ RationalInvestmentScore.stock_code <$> rational_scores
    ∧ code ∈ GrowthValuationPosition.stock_code <$> growth_positions
    ∧ code ∈ ShortTermSignal.stock_code <$> short_term_signals.
Proof.
  unfold joined. by rewrite !dict_by_code_is_Some.
Qed.

Lemma joined_in_all_codes (code : string) :
  joined rational_dict growth_dict short_term_dict code → code ∈ all_codes.
Proof.
  intros (Hr & _ & _).
  apply elem_of_union_l, elem_of_union_l. by apply elem_of_dom.
Qed.

Lemma emitted_codes (codes : list string) (signals : list IntegratedSignal.t) :
  Forall2 (emitted_for self rational_dict growth_dict short_term_dict)
    codes signals →
  IntegratedSignal.stock_code <$> signals = codes.
Proof.
  induction 1 as [| code signal codes signals Hem _ IH]; [reflexivity |].
  cbn. rewrite IH. f_equal.
  destruct Hem as (r & g & s & _ & _ & _ & Hbuilt). apply Hbuilt.
Qed.

End Integrate.

(** The signals of a run: each is built from the three verdicts found for
    its code, the codes are those found in all three collections, and no
    code comes twice. *)
Lemma integrate_strategies_output (self : StrategyIntegrator.t)
    (iter_order : gset string → list string) (clock : nat → Z)
    (rational_scores : list RationalInvestmentScore.t)
    (growth_positions : list GrowthValuationPosition.t)
    (short_term_signals : list ShortTermSignal.t) :
  (∀ s : gset string, iter_order s ≡ₚ elements s) →
  ∃ output,
    outcome (StrategyIntegrator.integrate_strategies self iter_order clock
               rational_scores growth_positions short_term_signals)
    = inr output
    ∧ StronglySorted
        (λ a b, tuple_ge (IntegratedSignal.sort_key a) (IntegratedSignal.sort_key b))
        output
    ∧ NoDup (IntegratedSignal.stock_code <$> output)
    ∧ (∀ code,
         code ∈ IntegratedSignal.stock_code <$> output
         ↔ code ∈ RationalInvestmentScore.stock_code <$> rational_scores
           ∧ code ∈ GrowthValuationPosition.stock_code <$> growth_positions
           ∧ code ∈ ShortTermSignal.stock_code <$> short_term_signals)
    ∧ (∀ signal, signal ∈ output →
         emitted_for self
           (StrategyIntegrator.dict_by_code
              RationalInvestmentScore.stock_code rational_scores)
           (StrategyIntegrator.dict_by_code
              GrowthValuationPosition.stock_code growth_positions)
           (StrategyIntegrator.dict_by_code
              ShortTermSignal.stock_code short_term_signals)
           (IntegratedSignal.stock_code signal) signal).
Proof.
  intros Hperm.
  destruct (integrate_strategies_run self iter_order clock rational_scores
              growth_positions short_term_signals)
    as (signals & Hout & _ & Hall).
  exists (sort_reverse IntegratedSignal.sort_key signals).
  split; [exact Hout |]. split; [apply sort_reverse_sorted |].
  pose proof (emitted_codes _ _ _ _ _ _ Hall) as Hcodes.
  assert (Hfmap : IntegratedSignal.stock_code
                    <$> sort_reverse IntegratedSignal.sort_key signals
                  ≡ₚ IntegratedSignal.stock_code <$> signals).
  { apply fmap_Permutation, sort_reverse_perm. }
  split; [| split].
  - rewrite Hfmap, Hcodes. apply NoDup_filter.
    rewrite Hperm. apply NoDup_elements.
  - intros code. rewrite Hfmap, Hcodes, list_elem_of_filter, Hperm.
    rewrite <- joined_iff. split; [by intros [? _] |].
    intros Hj. split; [exact Hj |].
    apply elem_of_elements. by apply joined_in_all_codes.
  - intros signal Hin. rewrite sort_reverse_perm in Hin.
    apply list_elem_of_lookup in Hin as [i Hi].
    destruct (Forall2_lookup_r _ _ _ _ _ Hall Hi) as (code & _ & Hem).
    assert (IntegratedSignal.stock_code signal = code) as ->; [| exact Hem].
    destruct Hem as (r & g & s & _ & _ & _ & Hbuilt). apply Hbuilt.
Qed.

(** C1.  Whatever the three collections and the iteration order of the set
    of codes, [integrate_strategies] returns a list, and that list holds a
    signal for a stock code if and only if the code is present in all three
    collections; a code present in only one or two of them has no signal.
    No code has two signals. *)
Theorem integrate_strategies_strict_join (self : StrategyIntegrator.t)
    (iter_order : gset string → list string) (clock : nat → Z)
    (rational_scores : list RationalInvestmentScore.t)
    (growth_positions : list GrowthValuationPosition.t)
    (short_term_signals : list ShortTermSignal.t) :
  (∀ s : gset string, iter_order s ≡ₚ elements s) →
  ∃ output,
    outcome (StrategyIntegrator.integrate_strategies self iter_order clock
               rational_scores growth_positions short_term_signals)
    = inr output
    ∧ (∀ code,
         (∃ signal, signal ∈ output ∧ IntegratedSignal.stock_code signal = code)
         ↔ code ∈ RationalInvestmentScore.stock_code <$> rational_scores
           ∧ code ∈ GrowthValuationPosition.stock_code <$> growth_positions
           ∧ code ∈ ShortTermSignal.stock_code <$> short_term_signals)
    ∧ NoDup (IntegratedSignal.stock_code <$> output).
Proof.
  intros Hperm.
  destruct (integrate_strategies_output self iter_order clock rational_scores
              growth_positions short_term_signals Hperm)
    as (output & Hout & _ & Hnodup & Hcodes & _).
  exists output. split; [exact Hout |]. split; [| exact Hnodup].
  intros code. rewrite <- Hcodes, list_elem_of_fmap.
  split; intros (signal & H1 & H2); exists signal; by split.
Qed.

Lemma integrate_strategies_strict_join_witness :
  ∃ output,
    outcome (StrategyIntegrator.integrate_strategies
               StrategyIntegrator.default_integrator elements (λ _, 0)
               two_fundamentals two_positions [timing_at "A" true 3 10 12 14 9])
    = inr output
    ∧ (∀ code,
         (∃ signal, signal ∈ output ∧ IntegratedSignal.stock_code signal = code)
         ↔ code ∈ RationalInvestmentScore.stock_code <$> two_fundamentals
           ∧ code ∈ GrowthValuationPosition.stock_code <$> two_positions
           ∧ code ∈ ShortTermSignal.stock_code
                      <$> [timing_at "A" true 3 10 12 14 9])
    ∧ NoDup (IntegratedSignal.stock_code <$> output).
Proof.
  apply integrate_strategies_strict_join. intros s. reflexivity.
Defined.

(** C2.  Every instrument with all three verdicts gets a signal, and the
    tier of every signal follows the priority table on its own three
    verdicts: Tier 1 when the fundamental verdict passes, the quadrant is
    the target and all hard timing conditions are met; Tier 2 when the last
    two hold and the fundamental verdict does not pass; Tier 3 in every
    other case, whether the fundamental verdict passes or not. *)
Theorem signal_level_priority_table (self : StrategyIntegrator.t)
    (iter_order : gset string → list string) (clock : nat → Z)
    (rational_scores : list RationalInvestmentScore.t)
    (growth_positions : list GrowthValuationPosition.t)
    (short_term_signals : list ShortTermSignal.t) :
  (∀ s : gset string, iter_order s ≡ₚ elements s) →
  ∃ output,
    outcome (StrategyIntegrator.integrate_strategies self iter_order clock
               rational_scores growth_positions short_term_signals)
    = inr output
    ∧ (∀ code,
         code ∈ RationalInvestmentScore.stock_code <$> rational_scores →
         code ∈ GrowthValuationPosition.stock_code <$> growth_positions →
         code ∈ ShortTermSignal.stock_code <$> short_term_signals →
         ∃ signal, signal ∈ output ∧ IntegratedSignal.stock_code signal = code)
    ∧ (∀ signal, signal ∈ output →
         let pass_rational :=
           RationalInvestmentScore.is_pass
             (IntegratedSignal.rational_investment signal)
             (StrategyIntegrator.rational_threshold self) in
         let pass_growth :=
           GrowthValuationPosition.is_in_target_quadrant
             (IntegratedSignal.growth_valuation signal)
             (StrategyIntegrator.target_quadrant self) in
         let pass_short_term :=
           ShortTermSignal.all_hard_conditions_met
             (IntegratedSignal.short_term signal) in
         IntegratedSignal.rational_investment signal ∈ rational_scores ∧
         IntegratedSignal.growth_valuation signal ∈ growth_positions ∧
         IntegratedSignal.short_term signal ∈ short_term_signals ∧
         (pass_rational = true ∧ pass_growth = true ∧ pass_short_term = true →
          IntegratedSignal.signal_level signal = LEVEL_1) ∧
         (pass_rational = false ∧ pass_growth = true ∧ pass_short_term = true →
          IntegratedSignal.signal_level signal = LEVEL_2) ∧
         (pass_growth = false ∨ pass_short_term = false →
          IntegratedSignal.signal_level signal = LEVEL_3)).
Proof.
  intros Hperm.
  destruct (integrate_strategies_output self iter_order clock rational_scores
              growth_positions short_term_signals Hperm)
    as (output & Hout & _ & _ & Hcodes & Hem).
  exists output. split; [exact Hout |]. split.
  - intros code Hr Hg Hs.
    assert (Hin : code ∈ IntegratedSignal.stock_code <$> output)
      by (by apply Hcodes).
    apply list_elem_of_fmap in Hin as (signal & -> & Hin). by exists signal.
  - intros signal Hin.
    destruct (Hem signal Hin) as (r & g & s & Hr & Hg & Hs & Hbuilt).
    destruct Hbuilt as (_ & -> & -> & -> & Hlevel & _). cbn zeta.
    pose proof (dict_by_code_lookup RationalInvestmentScore.stock_code
                  rational_scores (IntegratedSignal.stock_code signal)) as Hr'.
    pose proof (dict_by_code_lookup GrowthValuationPosition.stock_code
                  growth_positions (IntegratedSignal.stock_code signal)) as Hg'.
    pose proof (dict_by_code_lookup ShortTermSignal.stock_code
                  short_term_signals (IntegratedSignal.stock_code signal)) as Hs'.
    rewrite Hr in Hr'. rewrite Hg in Hg'. rewrite Hs in Hs'.
    do 3 (split; [tauto |]).
    rewrite Hlevel. apply _determine_signal_level_table.
Qed.

Lemma signal_level_priority_table_witness :
  ∃ output,
    outcome (StrategyIntegrator.integrate_strategies
               StrategyIntegrator.default_integrator elements (λ _, 0)
               two_fundamentals two_positions two_timings)
    = inr output
    ∧ (∃ signal, signal ∈ output ∧ IntegratedSignal.stock_code signal = "A"
                 ∧ IntegratedSignal.signal_level signal = LEVEL_1)
    ∧ (∃ signal, signal ∈ output ∧ IntegratedSignal.stock_code signal = "B"
                 ∧ IntegratedSignal.signal_level signal = LEVEL_3).
Proof.
  destruct (signal_level_priority_table
              StrategyIntegrator.default_integrator elements (λ _, 0)
              two_fundamentals two_positions two_timings)
    as (output & Hout & Hkept & Htable); [intros s; reflexivity |].
  exists output. split; [exact Hout |].
  vm_compute in Hout. injection Hout as <-.
  split.
  - destruct (Hkept "A") as (signal & Hs & Hc);
      [apply (bool_decide_unpack _); by vm_compute ..|].
    exists signal. split; [exact Hs |]. split; [exact Hc |].
    destruct (Htable signal Hs) as (_ & _ & _ & H1 & _).
    apply H1.
    apply elem_of_cons in Hs as [-> | Hs]; [discriminate Hc |].
    apply list_elem_of_singleton in Hs as ->. by vm_compute.
  - destruct (Hkept "B") as (signal & Hs & Hc);
      [apply (bool_decide_unpack _); by vm_compute ..|].
    exists signal. split; [exact Hs |]. split; [exact Hc |].
    destruct (Htable signal Hs) as (_ & _ & _ & _ & _ & H3).
    apply H3.
    apply elem_of_cons in Hs as [-> | Hs]; [by left |].
    apply list_elem_of_singleton in Hs as ->. discriminate Hc.
Defined.

Lemma StronglySorted_weaken {A : Type} (R R' : A → A → Prop) (l : list A) :
  (∀ a b, R a b → R' a b) → StronglySorted R l → StronglySorted R' l.
Proof.
  intros Himpl. induction 1 as [| x l _ IH Hall]; constructor; [exact IH |].
  eapply Forall_impl; [exact Hall | apply Himpl].
Qed.

(** What the sort of [integrate_strategies] gives: along the returned list
    the pair [(signal_level.value, confidence_score)] never increases.  The
    value of Tier 1 is 1 and that of Tier 3 is 3, so the order of the tiers
    is Tier 3, Tier 2, Tier 1. *)
Lemma integrate_strategies_sorted_by_value (self : StrategyIntegrator.t)
    (iter_order : gset string → list string) (clock : nat → Z)
    (rational_scores : list RationalInvestmentScore.t)
    (growth_positions : list GrowthValuationPosition.t)
    (short_term_signals : list ShortTermSignal.t) :
  ∃ output,
    outcome (StrategyIntegrator.integrate_strategies self iter_order clock
               rational_scores growth_positions short_term_signals)
    = inr output
    ∧ StronglySorted
        (λ a b,
           value (IntegratedSignal.signal_level b)
             < value (IntegratedSignal.signal_level a)
           ∨ (IntegratedSignal.signal_level b = IntegratedSignal.signal_level a
              ∧ (IntegratedSignal.confidence_score b
                 <= IntegratedSignal.confidence_score a)%Q))
        output.
Proof.
  destruct (integrate_strategies_run self iter_order clock rational_scores
              growth_positions short_term_signals)
    as (signals & Hout & _ & _).
  eexists. split; [exact Hout |].
  eapply StronglySorted_weaken; [| apply sort_reverse_sorted].
  intros a b. unfold tuple_ge, tuple_lt, IntegratedSignal.sort_key. cbn.
  destruct (value _ =? value _) eqn:E.
  - rewrite Qltb_false. intros Hle. right. split; [| exact Hle].
    apply Z.eqb_eq in E.
    by destruct (IntegratedSignal.signal_level a),
      (IntegratedSignal.signal_level b).
  - rewrite Z.ltb_ge. apply Z.eqb_neq in E. intros Hle. left. lia.
Qed.

(** C4.  On a run with a Tier 1 instrument "A" (confidence 10) and a Tier 3
    instrument "B" (confidence 3), whatever the iteration order of the set
    of codes, the returned list has the Tier 3 signal first and the Tier 1
    signal last. *)
Theorem integrate_strategies_weakest_tier_first
    (iter_order : gset string → list string) (clock : nat → Z) :
  (∀ s : gset string, iter_order s ≡ₚ elements s) →
  ∃ output,
    outcome (StrategyIntegrator.integrate_strategies
               StrategyIntegrator.default_integrator iter_order clock
               two_fundamentals two_positions two_timings)
    = inr output
    ∧ (λ x, (IntegratedSignal.stock_code x, IntegratedSignal.signal_level x))
        <$> output
      = [("B", LEVEL_3); ("A", LEVEL_1)]
    ∧ Forall2 Qeq (IntegratedSignal.confidence_score <$> output) [3%Q; 10%Q].
Proof.
  intros Hperm. unfold StrategyIntegrator.integrate_strategies. cbv zeta.
  match goal with
  | |- context [iter_order ?S] =>
      pose proof (Hperm S) as Hcodes; remember (iter_order S) as codes eqn:Ecodes
  end.
  clear Ecodes Hperm.
  match type of Hcodes with
  | _ ≡ₚ ?e => let e' := eval vm_compute in e in change e with e' in Hcodes
  end.
  symmetry in Hcodes. apply Permutation_length_2_inv in Hcodes.
  destruct Hcodes as [-> | ->];
    (eexists; split; [vm_compute; reflexivity |];
     split; [vm_compute; reflexivity |];
     repeat constructor; by vm_compute).
Qed.

Lemma integrate_strategies_weakest_tier_first_witness :
  ∃ output,
    outcome (StrategyIntegrator.integrate_strategies
               StrategyIntegrator.default_integrator elements (λ n, Z.of_nat n)
               two_fundamentals two_positions two_timings)
    = inr output
    ∧ (λ x, (IntegratedSignal.stock_code x, IntegratedSignal.signal_level x))
        <$> output
      = [("B", LEVEL_3); ("A", LEVEL_1)]
    ∧ Forall2 Qeq (IntegratedSignal.confidence_score <$> output) [3%Q; 10%Q].
Proof.
  apply integrate_strategies_weakest_tier_first. intros s. reflexivity.
Defined.

(** * Properties of the rest of the code *)

(** ** The fundamental gate and the pipeline threshold *)

Lemma gate1_raw_total_le_7 (row : gmap string Q) : gate1_raw_total row <= 7.
Proof. unfold gate1_raw_total. case_Qltb; lia. Qed.

Lemma gate1_score_le_7 (funda : option (list (gmap string Q))) :
  gate1_score funda <= 7.
Proof.
  destruct funda as [frame |]; [| cbn; lia].
  destruct frame as [| r frame'] using rev_ind; [cbn; lia |].
  rewrite gate1_score_last. pose proof (gate1_raw_total_le_7 r). lia.
Qed.

Lemma gate1_score_pass_iff (rows : list (gmap string Q)) (row : gmap string Q) :
  6 <= gate1_score (Some (rows ++ [row]))
  ↔ (row_get row "资产负债率" 100 < 70)%Q
    ∧ (10 < row_get row "ROE" 0)%Q
    ∧ (0 < row_get row "经营现金流量净额" (-1))%Q
    ∧ (0 <= row_get row "净利润" (-1))%Q.
Proof.
  rewrite gate1_score_last. unfold gate1_raw_total.
  case_Qltb;
    (split;
     [intros H; first [lia | repeat split; lra]
     | intros (? & ? & ? & ?); first [lia | lra]]).
Qed.

(** The fundamental gate never scores above 7, and the last row of a frame
    reaches the pipeline threshold of 6 exactly when its debt ratio is
    under 70, its ROE above 10, its operating cash flow positive and its
    net profit not negative; the current ratio only decides between 6 and
    7. *)
Theorem gate1_score_threshold (rows : list (gmap string Q)) (row : gmap string Q) :
  (∀ funda, gate1_score funda <= 7) ∧
  (6 <= gate1_score (Some (rows ++ [row]))
   ↔ (row_get row "资产负债率" 100 < 70)%Q
     ∧ (10 < row_get row "ROE" 0)%Q
     ∧ (0 < row_get row "经营现金流量净额" (-1))%Q
     ∧ (0 <= row_get row "净利润" (-1))%Q) ∧
  (6 <= gate1_score (Some (rows ++ [row])) →
   gate1_score (Some (rows ++ [row]))
   = if Qltb 1 (row_get row "流动比率" 0) then 7 else 6).
Proof.
  split; [exact gate1_score_le_7 |].
  split; [apply gate1_score_pass_iff |].
  rewrite gate1_score_last. unfold gate1_raw_total.
  case_Qltb; lia.
Qed.

(** A last row that lacks the debt ratio, the ROE, the operating cash flow
    or the net profit stays under the pipeline threshold of 6: each default
    fails its condition. *)
Theorem gate1_score_missing_column (rows : list (gmap string Q))
    (row : gmap string Q) :
  row !! "资产负债率" = None ∨ row !! "ROE" = None
  ∨ row !! "经营现金流量净额" = None ∨ row !! "净利润" = None →
  gate1_score (Some (rows ++ [row])) < 6.
Proof.
  intros Hmissing.
  destruct (Z.lt_ge_cases (gate1_score (Some (rows ++ [row]))) 6) as [? | Hge];
    [assumption | exfalso].
  apply gate1_score_pass_iff in Hge as (Hdebt & Hroe & Hcash & Hprofit).
  unfold row_get in *.
  destruct Hmissing as [H | [H | [H | H]]]; rewrite H in *; cbn in *; lra.
Qed.

Lemma gate1_score_missing_column_witness :
  gate1_score (Some [∅; delete "净利润" sound_row]) < 6.
Proof.
  apply (gate1_score_missing_column [∅] (delete "净利润" sound_row)).
  right. right. right. by vm_compute.
Defined.

(** ** The growth-value gate as a filter *)

Lemma gate2_decide_nonzero (growth pe : Q) :
  gate2_decide growth pe ≠ 0 ↔ (10 < growth)%Q.
Proof.
  unfold gate2_decide.
  case_Qltb; cbn; split; try discriminate; try congruence; intros; lra.
Qed.

(** The priority of a frame is not 0, so that the pipeline keeps the stock,
    exactly when the frame has at least two rows and the growth figure of
    its last row exceeds 10; a last row without a growth figure gets 0. *)
Theorem gate2_priority_nonzero (rows : list (gmap string Q)) (row : gmap string Q) :
  (gate2_priority (Some (rows ++ [row])) ≠ 0
   ↔ rows ≠ [] ∧ (10 < gate2_growth row)%Q) ∧
  (row !! "净利润同比" = None → gate2_priority (Some (rows ++ [row])) = 0).
Proof.
  assert (Hiff : gate2_priority (Some (rows ++ [row])) ≠ 0
                 ↔ rows ≠ [] ∧ (10 < gate2_growth row)%Q).
  { destruct rows as [| r rows'].
    - cbn. split; [congruence | intros [? _]; congruence].
    - rewrite (gate2_priority_last _ row), gate2_decide_nonzero;
        [| rewrite length_app; cbn; lia | apply last_snoc].
      split; [intros ?; by split | by intros [_ ?]]. }
  split; [exact Hiff |].
  intros Hnone.
  destruct (decide (gate2_priority (Some (rows ++ [row])) = 0)) as [? | Hne];
    [assumption | exfalso].
  apply Hiff in Hne as [_ Hg]. unfold gate2_growth, row_get in Hg.
  rewrite Hnone in Hg. cbn in Hg. lra.
Qed.

Lemma gate2_priority_nonzero_witness :
  gate2_priority (Some [∅; delete "净利润同比" sound_row]) = 0.
Proof.
  apply (gate2_priority_nonzero [∅] (delete "净利润同比" sound_row)).
  by vm_compute.
Defined.

(** ** The timing gate *)

Lemma gate3_timing_last (close : list Q) (recent : Q) :
  (20 <= length close)%nat → last close = Some recent →
  gate3_timing (Some close)
  = let ma20 := np_mean (drop (length close - 20) close) in
    if Qltb recent (ma20 * 0.95) then "WATCH"
    else if Qltb ma20 recent then "YES" else "NO".
Proof.
  intros Hlen Hlast. unfold gate3_timing. rewrite Hlast.
  destruct (length close <? 20)%nat eqn:E; [| reflexivity].
  apply Nat.ltb_lt in E. lia.
Qed.

(** The timing gate answers "NO" without a frame or with fewer than 20
    closes, and otherwise reads only the last 20 closes: closes older than
    the window do not change the answer. *)
Theorem gate3_timing_window (older window : list Q) :
  gate3_timing None = "NO" ∧
  ((length window < 20)%nat → gate3_timing (Some window) = "NO") ∧
  (length window = 20%nat →
   gate3_timing (Some (older ++ window)) = gate3_timing (Some window)).
Proof.
  split; [reflexivity |]. split.
  - intros Hlen. unfold gate3_timing. apply Nat.ltb_lt in Hlen. by rewrite Hlen.
  - intros Hlen.
    destruct window as [| c window'] using rev_ind; [discriminate |]. clear IHwindow'.
    assert (Hall : length (older ++ window' ++ [c]) = (length older + 20)%nat)
      by (rewrite length_app; lia).
    rewrite (gate3_timing_last (older ++ window' ++ [c]) c);
      [| lia | by rewrite app_assoc, last_snoc].
    rewrite (gate3_timing_last (window' ++ [c]) c);
      [| lia | by rewrite last_snoc].
    rewrite Hlen, Nat.sub_diag, Hall. cbn [drop].
    replace (length older + 20 - 20)%nat with (length older) by lia.
    by rewrite drop_app_length.
Qed.

Lemma gate3_timing_window_witness :
  gate3_timing (Some (replicate 19 10%Q)) = "NO" ∧
  gate3_timing (Some ([1%Q; 2%Q] ++ replicate 19 10%Q ++ [11%Q]))
  = gate3_timing (Some (replicate 19 10%Q ++ [11%Q])).
Proof.
  split.
  - destruct (gate3_timing_window [] (replicate 19 10%Q)) as (_ & Hshort & _).
    apply Hshort. vm_compute. lia.
  - destruct (gate3_timing_window [1%Q; 2%Q] (replicate 19 10%Q ++ [11%Q]))
      as (_ & _ & Hwindow).
    apply Hwindow. reflexivity.
Defined.



(** ** The gate pipeline *)

Section SortValuesFacts.
Context {A : Type} (columns : A → Z * Z).

Lemma columns_lt_asym (a b : Z * Z) : columns_lt a b = true → columns_ge b a.
Proof.
  unfold columns_ge, columns_lt. destruct a as [a1 a2], b as [b1 b2]. cbn.
  destruct (a1 =? b1)%Z eqn:E1, (b1 =? a1)%Z eqn:E2;
    rewrite ?Z.eqb_eq, ?Z.eqb_neq, ?Z.ltb_lt, ?Z.ltb_ge in *; lia.
Qed.

Lemma columns_ge_trans (a b c : Z * Z) :
  columns_ge a b → columns_ge b c → columns_ge a c.
Proof.
  unfold columns_ge, columns_lt. destruct a as [a1 a2], b as [b1 b2], c as [c1 c2]. cbn.
  destruct (a1 =? b1)%Z eqn:E1, (b1 =? c1)%Z eqn:E2, (a1 =? c1)%Z eqn:E3;
    rewrite ?Z.eqb_eq, ?Z.eqb_neq, ?Z.ltb_lt, ?Z.ltb_ge in *; lia.
Qed.

Lemma insert_descending_perm (x : A) (l : list A) :
  insert_descending columns x l ≡ₚ x :: l.
Proof.
  induction l as [| y l IH]; cbn; [reflexivity |].
  destruct (columns_lt (columns x) (columns y)); [| reflexivity].
  rewrite IH. apply perm_swap.
Qed.

Lemma sort_values_descending_perm (l : list A) :
  sort_values_descending columns l ≡ₚ l.
Proof.
  induction l as [| x l IH]; cbn; [reflexivity |].
  rewrite insert_descending_perm. by rewrite IH.
Qed.

Lemma insert_descending_sorted (x : A) (l : list A) :
  StronglySorted (λ a b, columns_ge (columns a) (columns b)) l →
  StronglySorted (λ a b, columns_ge (columns a) (columns b))
    (insert_descending columns x l).
Proof.
  induction 1 as [| y l Hsorted IH Hall]; cbn.
  - repeat constructor.
  - destruct (columns_lt (columns x) (columns y)) eqn:E.
    + constructor; [exact IH |].
      rewrite insert_descending_perm. constructor; [| exact Hall].
      by apply columns_lt_asym.
    + constructor; [by constructor |].
      constructor; [exact E |].
      eapply Forall_impl; [exact Hall |].
      intros z Hz. by apply (columns_ge_trans _ (columns y)).
Qed.

Lemma sort_values_descending_sorted (l : list A) :
  StronglySorted (λ a b, columns_ge (columns a) (columns b))
    (sort_values_descending columns l).
Proof.
  induction l as [| x l IH]; cbn; [constructor |].
  by apply insert_descending_sorted.
Qed.
End SortValuesFacts.

Lemma pipeline_loop_filter (stocks : list FetchedStock.t)
    (results : list DecisionCard.t) :
  pipeline_loop stocks results
  = results ++ (card_of <$> filter passes_gates stocks).
Proof.
  revert results. induction stocks as [| row rest IH]; intros results.
  - cbn. by rewrite app_nil_r.
  - cbn [pipeline_loop]. cbv zeta.
    destruct (gate1_score (FetchedStock.funda row) <? 6) eqn:E1.
    + rewrite IH, filter_cons_False; [reflexivity |].
      apply Z.ltb_lt in E1. unfold passes_gates. lia.
    + apply Z.ltb_ge in E1.
      destruct (gate2_priority (FetchedStock.funda row) =? 0) eqn:E2.
      * rewrite IH, filter_cons_False; [reflexivity |].
        apply Z.eqb_eq in E2. unfold passes_gates. tauto.
      * apply Z.eqb_neq in E2.
        rewrite IH, filter_cons_True by (by split).
        by rewrite fmap_cons, <- app_assoc.
Qed.

Lemma passes_gates_frame (row : FetchedStock.t) :
  passes_gates row →
  ∃ frame, FetchedStock.funda row = Some frame ∧ (2 <= length frame)%nat.
Proof.
  intros [H1 H2].
  destruct (FetchedStock.funda row) as [frame |]; [| cbn in H1; lia].
  exists frame. split; [reflexivity |].
  destruct (Nat.lt_ge_cases (length frame) 2) as [Hlt | ?]; [| assumption].
  exfalso. apply H2. unfold gate2_priority.
  apply Nat.ltb_lt in Hlt. by rewrite Hlt.
Qed.

Lemma gate2_priority_range (funda : option (list (gmap string Q))) :
  0 <= gate2_priority funda <= 3.
Proof.
  destruct funda as [rows |]; [| cbn; lia].
  unfold gate2_priority.
  destruct (length rows <? 2)%nat; [lia |].
  destruct (last rows); [apply gate2_decide_range | lia].
Qed.

Lemma run_pipeline_perm (stocks : list FetchedStock.t)
    (cards : list DecisionCard.t) :
  run_pipeline stocks = inr cards →
  cards ≡ₚ card_of <$> filter passes_gates stocks.
Proof.
  intros Hrun. unfold run_pipeline in Hrun.
  rewrite pipeline_loop_filter in Hrun. cbn [app] in Hrun.
  destruct (card_of <$> filter passes_gates stocks) as [| c l] eqn:E;
    [discriminate |].
  injection Hrun as <-.
  apply (sort_values_descending_perm DecisionCard.sort_columns (c :: l)).
Qed.

(** [run_pipeline] raises [KeyError] on the first sort column exactly when
    no stock of the list passes both filters (a fundamental score of 6 or
    more and a priority other than 0), the empty stock list included; in
    every other case it returns a card that is not empty. *)
Theorem run_pipeline_no_survivor (stocks : list FetchedStock.t) :
  (run_pipeline stocks = inl (key_error "gate2_priority")
   ↔ ∀ row, row ∈ stocks → ¬ passes_gates row) ∧
  ((∃ row, row ∈ stocks ∧ passes_gates row)
   ↔ ∃ cards, run_pipeline stocks = inr cards ∧ cards ≠ []).
Proof.
  unfold run_pipeline. rewrite pipeline_loop_filter. cbn [app].
  destruct (filter passes_gates stocks) as [| row kept] eqn:E; cbn.
  - assert (Hnone : ∀ row, row ∈ stocks → ¬ passes_gates row).
    { intros row Hin Hpass.
      assert (Hf : row ∈ filter passes_gates stocks)
        by (by apply list_elem_of_filter).
      rewrite E in Hf. by apply not_elem_of_nil in Hf. }
    split; [by split |].
    split; [intros (row & Hin & Hpass); by destruct (Hnone row Hin)
           | intros (? & ? & _); discriminate].
  - assert (Hrow : row ∈ stocks ∧ passes_gates row).
    { assert (Hf : row ∈ filter passes_gates stocks)
        by (rewrite E; apply list_elem_of_here).
      apply list_elem_of_filter in Hf. tauto. }
    split.
    + split; [discriminate |]. intros Hnone. destruct Hrow as [Hin Hpass].
      by destruct (Hnone row Hin).
    + split; [intros _ | intros _; by exists row].
      eexists. split; [reflexivity |].
      intros Hnil.
      pose proof (insert_descending_perm DecisionCard.sort_columns (card_of row)
                    (sort_values_descending DecisionCard.sort_columns
                       (card_of <$> kept))) as Hperm.
      rewrite Hnil in Hperm. by apply Permutation_nil_cons in Hperm.
Qed.

(** When [run_pipeline] returns a card, its rows are the cards of the
    stocks that pass both filters, one per passing row of the stock list:
    the code, the name, the two gate results and the timing answer of that
    stock.  A stock whose fundamentals were not fetched, or whose frame has
    fewer than two rows, passes no filter. *)
Theorem run_pipeline_cards (stocks : list FetchedStock.t)
    (cards : list DecisionCard.t) :
  run_pipeline stocks = inr cards →
  cards ≡ₚ card_of <$> filter passes_gates stocks ∧
  (∀ card, card ∈ cards
           ↔ ∃ row, row ∈ stocks ∧ passes_gates row ∧ card = card_of row) ∧
  (∀ row, passes_gates row →
          ∃ frame, FetchedStock.funda row = Some frame
                   ∧ (2 <= length frame)%nat).
Proof.
  intros Hrun. pose proof (run_pipeline_perm stocks cards Hrun) as Hperm.
  split; [exact Hperm |]. split; [| exact passes_gates_frame].
  intros card. rewrite Hperm, list_elem_of_fmap.
  split.
  - intros (row & -> & Hin). apply list_elem_of_filter in Hin as [Hpass Hin].
    by exists row.
  - intros (row & Hin & Hpass & ->). exists row. split; [reflexivity |].
    by apply list_elem_of_filter.
Qed.

Lemma run_pipeline_cards_witness :
  [card_of (sound_stock "600000")]
  ≡ₚ card_of <$> filter passes_gates
                   [unfetched_stock "000001"; sound_stock "600000"].
Proof.
  apply (run_pipeline_cards
           [unfetched_stock "000001"; sound_stock "600000"]
           [card_of (sound_stock "600000")]).
  by vm_compute.
Defined.

(** The card [run_pipeline] returns is sorted by priority, highest first,
    and by fundamental score, highest first, among equal priorities; every
    row has a score of 6 or 7, a priority of 1, 2 or 3, and "NO", "WATCH"
    or "YES" as timing. *)
Theorem run_pipeline_sorted (stocks : list FetchedStock.t)
    (cards : list DecisionCard.t) :
  run_pipeline stocks = inr cards →
  StronglySorted
    (λ a b,
       DecisionCard.gate2_priority b < DecisionCard.gate2_priority a
       ∨ (DecisionCard.gate2_priority b = DecisionCard.gate2_priority a
          ∧ DecisionCard.gate1_score b <= DecisionCard.gate1_score a))
    cards ∧
  (∀ card, card ∈ cards →
     6 <= DecisionCard.gate1_score card <= 7
     ∧ 1 <= DecisionCard.gate2_priority card <= 3
     ∧ (DecisionCard.timing card = "NO" ∨ DecisionCard.timing card = "WATCH"
        ∨ DecisionCard.timing card = "YES")).
Proof.
  intros Hrun. split.
  - unfold run_pipeline in Hrun.
    destruct (pipeline_loop stocks []) as [| c l]; [discriminate |].
    injection Hrun as <-.
    eapply StronglySorted_weaken;
      [| apply (sort_values_descending_sorted DecisionCard.sort_columns (c :: l))].
    intros a b. unfold columns_ge, columns_lt, DecisionCard.sort_columns. cbn.
    destruct (_ =? _) eqn:E;
      rewrite ?Z.eqb_eq, ?Z.eqb_neq, ?Z.ltb_ge in *; lia.
  - intros card Hin.
    rewrite (run_pipeline_perm stocks cards Hrun), list_elem_of_fmap in Hin.
    destruct Hin as (row & -> & Hin).
    apply list_elem_of_filter in Hin as [[Hs1 Hs2] _].
    cbn. pose proof (gate1_score_le_7 (FetchedStock.funda row)) as Hle7.
    pose proof (gate2_priority_range (FetchedStock.funda row)) as Hrange.
    split; [lia |]. split; [lia |].
    unfold gate3_timing.
    destruct (FetchedStock.daily row) as [close |]; [| by left].
    destruct (length close <? 20)%nat; [by left |].
    destruct (last close); [| by left].
    destruct (Qltb _ _); [right; by left |].
    destruct (Qltb _ _); [right; by right | by left].
Qed.

Lemma run_pipeline_sorted_witness :
  6 <= DecisionCard.gate1_score (card_of (sound_stock "600000")) <= 7
  ∧ 1 <= DecisionCard.gate2_priority (card_of (sound_stock "600000")) <= 3
  ∧ (DecisionCard.timing (card_of (sound_stock "600000")) = "NO"
     ∨ DecisionCard.timing (card_of (sound_stock "600000")) = "WATCH"
     ∨ DecisionCard.timing (card_of (sound_stock "600000")) = "YES").
Proof.
  destruct (run_pipeline_sorted
              [unfetched_stock "000001"; sound_stock "600000"]
              [card_of (sound_stock "600000")]) as [_ Hrange];
    [by vm_compute |].
  apply Hrange. apply list_elem_of_here.
Defined.

(** ** Values of the derived returns *)

Lemma Qdiv_mult_cancel (a b : Q) : (0 < b)%Q → (a / b * b == a)%Q.
Proof. intros Hb. field. lra. Qed.

Lemma Qdiv_pos_iff (a b : Q) : (0 < b)%Q → ((0 < a / b)%Q ↔ (0 < a)%Q).
Proof.
  intros Hb. rewrite <- (Qmult_lt_r 0 (a / b) b Hb).
  rewrite Qdiv_mult_cancel by exact Hb. by rewrite Qmult_0_l.
Qed.

Lemma Qdiv_le_mono (a a' b : Q) : (0 < b)%Q → (a <= a')%Q → (a / b <= a' / b)%Q.
Proof.
  intros Hb Hle. apply (Qmult_le_r _ _ b Hb).
  by rewrite !Qdiv_mult_cancel.
Qed.

(** With the stop-loss under the current price, [risk_reward_ratio]
    divides once, by the distance to the stop-loss: the ratio times that
    distance is the gain to the first target, and the ratio is positive
    exactly when the first target is above the current price. *)
Theorem risk_reward_ratio_value (s : ShortTermSignal.t) :
  (ShortTermSignal.stop_loss s < ShortTermSignal.current_price s)%Q →
  ∃ rr,
    ShortTermSignal.risk_reward_ratio s
    = ([(ShortTermSignal.current_price s - ShortTermSignal.stop_loss s)%Q],
       inr rr)
    ∧ (rr * (ShortTermSignal.current_price s - ShortTermSignal.stop_loss s)
       == ShortTermSignal.first_target s - ShortTermSignal.current_price s)%Q
    ∧ ((0 < rr)%Q
       ↔ (ShortTermSignal.current_price s < ShortTermSignal.first_target s)%Q).
Proof.
  intros Hstop.
  assert (Hloss : (0 < ShortTermSignal.current_price s
                       - ShortTermSignal.stop_loss s)%Q) by lra.
  unfold ShortTermSignal.risk_reward_ratio. cbv zeta.
  pose proof Hloss as Hb. apply Qltb_true in Hb. rewrite Hb.
  rewrite truediv_positive by exact Hloss.
  eexists. split; [reflexivity |]. split.
  - by apply Qdiv_mult_cancel.
  - rewrite Qdiv_pos_iff by exact Hloss. split; intros; lra.
Qed.

Lemma risk_reward_ratio_value_witness :
  ∃ rr,
    ShortTermSignal.risk_reward_ratio (timing_at "600000" true 3 10 12 14 9)
    = ([(10 - 9)%Q], inr rr)
    ∧ (rr * (10 - 9) == 12 - 10)%Q
    ∧ ((0 < rr)%Q ↔ (10 < 12)%Q).
Proof.
  apply (risk_reward_ratio_value (timing_at "600000" true 3 10 12 14 9)).
  by vm_compute.
Defined.

(** With a positive current price, [potential_return] divides twice by the
    current price: each return times the price is the gain to its target,
    and the second return is not under the first when the second target is
    not under the first. *)
Theorem potential_return_value (s : ShortTermSignal.t) :
  (0 < ShortTermSignal.current_price s)%Q →
  ∃ r1 r2,
    ShortTermSignal.potential_return s
    = ([ShortTermSignal.current_price s; ShortTermSignal.current_price s],
       inr (r1, r2))
    ∧ (r1 * ShortTermSignal.current_price s
       == ShortTermSignal.first_target s - ShortTermSignal.current_price s)%Q
    ∧ (r2 * ShortTermSignal.current_price s
       == ShortTermSignal.second_target s - ShortTermSignal.current_price s)%Q
    ∧ ((ShortTermSignal.first_target s <= ShortTermSignal.second_target s)%Q
       → (r1 <= r2)%Q).
Proof.
  intros Hprice.
  unfold ShortTermSignal.potential_return.
  pose proof Hprice as Hb. apply Qltb_true in Hb. rewrite Hb.
  rewrite !truediv_positive by exact Hprice.
  do 2 eexists. split; [reflexivity |].
  split; [by apply Qdiv_mult_cancel |].
  split; [by apply Qdiv_mult_cancel |].
  intros Htargets. apply Qdiv_le_mono; [exact Hprice | lra].
Qed.

Lemma potential_return_value_witness :
  ∃ r1 r2,
    ShortTermSignal.potential_return (timing_at "600000" true 3 10 12 14 9)
    = ([10%Q; 10%Q], inr (r1, r2))
    ∧ (r1 * 10 == 12 - 10)%Q
    ∧ (r2 * 10 == 14 - 10)%Q
    ∧ ((12 <= 14)%Q → (r1 <= r2)%Q).
Proof.
  apply (potential_return_value (timing_at "600000" true 3 10 12 14 9)).
  by vm_compute.
Defined.

(** ** Monotonicity of confidence and position size *)

Lemma py_min_mono_l (a b c : Q) : (a <= b)%Q → (py_min a c <= py_min b c)%Q.
Proof. intros H. unfold py_min. case_Qltb; lra. Qed.

Lemma py_min_saturated (a b c : Q) :
  (c <= a)%Q → (c <= b)%Q → (py_min a c == py_min b c)%Q.
Proof. intros Ha Hb. unfold py_min. case_Qltb; lra. Qed.

(** The confidence score does not decrease when the total score of the
    fundamental verdict increases, the other inputs being the same, and
    total scores of 10 and above all give the same confidence. *)
Theorem confidence_monotone_in_total_score (self : StrategyIntegrator.t)
    (rational rational' : RationalInvestmentScore.t)
    (growth : GrowthValuationPosition.t) (short_term : ShortTermSignal.t)
    (pass_all : bool) :
  ((RationalInvestmentScore.total_score rational
    <= RationalInvestmentScore.total_score rational')%Q →
   (StrategyIntegrator._calculate_confidence_score
      self rational growth short_term pass_all
    <= StrategyIntegrator._calculate_confidence_score
         self rational' growth short_term pass_all)%Q) ∧
  ((10 <= RationalInvestmentScore.total_score rational)%Q →
   (10 <= RationalInvestmentScore.total_score rational')%Q →
   (StrategyIntegrator._calculate_confidence_score
      self rational growth short_term pass_all
    == StrategyIntegrator._calculate_confidence_score
         self rational' growth short_term pass_all)%Q).
Proof.
  unfold StrategyIntegrator._calculate_confidence_score.
  split.
  - intros Hle.
    assert (Hnorm : (py_min (RationalInvestmentScore.total_score rational / 10) 1
                     <= py_min (RationalInvestmentScore.total_score rational' / 10) 1)%Q).
    { apply py_min_mono_l. div10. lra. }
    apply py_min_mono_l.
    destruct (bool_decide _); [| destruct (_ && _)];
      destruct (ShortTermSignal.all_hard_conditions_met short_term);
      destruct (3 <=? _)%Z; destruct pass_all; lra.
  - intros H1 H2.
    assert (Hnorm : (py_min (RationalInvestmentScore.total_score rational / 10) 1
                     == py_min (RationalInvestmentScore.total_score rational' / 10) 1)%Q).
    { apply py_min_saturated; div10; lra. }
    revert Hnorm.
    generalize (py_min (RationalInvestmentScore.total_score rational / 10) 1).
    generalize (py_min (RationalInvestmentScore.total_score rational' / 10) 1).
    intros n' n Hnorm. unfold py_min.
    destruct (bool_decide _); [| destruct (_ && _)];
      destruct (ShortTermSignal.all_hard_conditions_met short_term);
      destruct (3 <=? _)%Z; destruct pass_all; case_Qltb; lra.
Qed.

Lemma confidence_monotone_in_total_score_witness :
  (StrategyIntegrator._calculate_confidence_score
     StrategyIntegrator.default_integrator (fundamental_at "600000" 5)
     (position_at "600000" TOP_LEFT None)
     (timing_at "600000" false 0 10 12 14 9) false
   <= StrategyIntegrator._calculate_confidence_score
        StrategyIntegrator.default_integrator (fundamental_at "600000" 8)
        (position_at "600000" TOP_LEFT None)
        (timing_at "600000" false 0 10 12 14 9) false)%Q.
Proof.
  apply (confidence_monotone_in_total_score
           StrategyIntegrator.default_integrator
           (fundamental_at "600000" 5) (fundamental_at "600000" 8)).
  by vm_compute.
Defined.

(** The suggested position does not decrease when the confidence score
    increases; for a confidence score that is not negative it does not
    decrease when the risk/reward ratio increases, and a stronger tier
    never gets a smaller position than a weaker one. *)
Theorem position_size_monotone (signal_level : SignalLevel)
    (confidence_score confidence_score' risk_reward_ratio risk_reward_ratio' : Q) :
  ((confidence_score <= confidence_score')%Q →
   (StrategyIntegrator._calculate_position_size
      signal_level confidence_score risk_reward_ratio
    <= StrategyIntegrator._calculate_position_size
         signal_level confidence_score' risk_reward_ratio)%Q) ∧
  ((0 <= confidence_score)%Q → (risk_reward_ratio <= risk_reward_ratio')%Q →
   (StrategyIntegrator._calculate_position_size
      signal_level confidence_score risk_reward_ratio
    <= StrategyIntegrator._calculate_position_size
         signal_level confidence_score risk_reward_ratio')%Q) ∧
  ((0 <= confidence_score)%Q →
   (StrategyIntegrator._calculate_position_size
      LEVEL_3 confidence_score risk_reward_ratio
    <= StrategyIntegrator._calculate_position_size
         LEVEL_2 confidence_score risk_reward_ratio)%Q
   ∧ (StrategyIntegrator._calculate_position_size
        LEVEL_2 confidence_score risk_reward_ratio
      <= StrategyIntegrator._calculate_position_size
           LEVEL_1 confidence_score risk_reward_ratio)%Q).
Proof.
  destruct base_position_table as (B1 & B2 & B3).
  unfold StrategyIntegrator._calculate_position_size,
    StrategyIntegrator.final_position, StrategyIntegrator.rr_multiplier.
  div10. cbv zeta.
  split; [| split].
  - intros Hle. apply py_min_mono_l.
    destruct signal_level; rewrite ?B1, ?B2, ?B3; case_Qltb; lra.
  - intros H0 Hle. apply py_min_mono_l.
    destruct signal_level; rewrite ?B1, ?B2, ?B3; case_Qltb; lra.
  - intros H0. rewrite B1, B2, B3.
    split; apply py_min_mono_l; case_Qltb; lra.
Qed.

Lemma position_size_monotone_witness :
  (StrategyIntegrator._calculate_position_size LEVEL_1 5 3
   <= StrategyIntegrator._calculate_position_size LEVEL_1 9 3)%Q ∧
  (StrategyIntegrator._calculate_position_size LEVEL_1 5 1
   <= StrategyIntegrator._calculate_position_size LEVEL_1 5 3)%Q ∧
  (StrategyIntegrator._calculate_position_size LEVEL_3 5 3
   <= StrategyIntegrator._calculate_position_size LEVEL_2 5 3)%Q.
Proof.
  split; [| split].
  - destruct (position_size_monotone LEVEL_1 5 9 3 3) as (H & _ & _).
    apply H. by vm_compute.
  - destruct (position_size_monotone LEVEL_1 5 5 1 3) as (_ & H & _).
    apply H; by vm_compute.
  - destruct (position_size_monotone LEVEL_1 5 5 3 3) as (_ & _ & H).
    apply H. by vm_compute.
Defined.

(** ** Signals of a run *)

(** The three verdicts of a returned signal are records of the three input
    collections, and the signal is built from them. *)
Lemma output_signal_sources (self : StrategyIntegrator.t)
    (iter_order : gset string → list string) (clock : nat → Z)
    (rational_scores : list RationalInvestmentScore.t)
    (growth_positions : list GrowthValuationPosition.t)
    (short_term_signals : list ShortTermSignal.t) :
  (∀ s : gset string, iter_order s ≡ₚ elements s) →
  ∃ output,
    outcome (StrategyIntegrator.integrate_strategies self iter_order clock
               rational_scores growth_positions short_term_signals)
    = inr output
    ∧ ∀ signal, signal ∈ output →
        IntegratedSignal.rational_investment signal ∈ rational_scores
        ∧ IntegratedSignal.growth_valuation signal ∈ growth_positions
        ∧ IntegratedSignal.short_term signal ∈ short_term_signals
        ∧ built_from self (IntegratedSignal.stock_code signal)
            (IntegratedSignal.rational_investment signal)
            (IntegratedSignal.growth_valuation signal)
            (IntegratedSignal.short_term signal) signal.
Proof.
  intros Hperm.
  destruct (integrate_strategies_output self iter_order clock rational_scores
              growth_positions short_term_signals Hperm)
    as (output & Hout & _ & _ & _ & Hem).
  exists output. split; [exact Hout |].
  intros signal Hin.
  destruct (Hem signal Hin) as (r & g & s & Hr & Hg & Hs & Hbuilt).
  pose proof Hbuilt as (_ & Er & Eg & Es & _).
  pose proof (dict_by_code_lookup RationalInvestmentScore.stock_code
                rational_scores (IntegratedSignal.stock_code signal)) as Hr'.
  pose proof (dict_by_code_lookup GrowthValuationPosition.stock_code
                growth_positions (IntegratedSignal.stock_code signal)) as Hg'.
  pose proof (dict_by_code_lookup ShortTermSignal.stock_code
                short_term_signals (IntegratedSignal.stock_code signal)) as Hs'.
  rewrite Hr in Hr'. rewrite Hg in Hg'. rewrite Hs in Hs'.
  rewrite Er, Eg, Es. tauto.
Qed.

Lemma determine_level_1_iff (pass_rational pass_growth pass_short_term : bool) :
  StrategyIntegrator._determine_signal_level
    pass_rational pass_growth pass_short_term = LEVEL_1
  ↔ pass_rational && pass_growth && pass_short_term = true.
Proof.
  destruct pass_rational, pass_growth, pass_short_term; cbn;
    split; congruence.
Qed.

Lemma is_pass_true (r : RationalInvestmentScore.t) (threshold : Q) :
  RationalInvestmentScore.is_pass r threshold = true
  ↔ RationalInvestmentScore.survival_veto r = false
    ∧ (threshold <= RationalInvestmentScore.total_score r)%Q.
Proof.
  unfold RationalInvestmentScore.is_pass, Qgeb.
  rewrite andb_true_iff, !negb_true_iff, Qltb_false. tauto.
Qed.

(** In the list a run returns, a signal is flagged as passing all
    strategies exactly when it is Tier 1.  A Tier 1 signal has a
    fundamental verdict without veto and with a total score at or above the
    threshold, a quadrant equal to the target and all three hard conditions
    met; a vetoed verdict is never Tier 1, whatever its score. *)
Theorem pass_all_is_tier_1 (self : StrategyIntegrator.t)
    (iter_order : gset string → list string) (clock : nat → Z)
    (rational_scores : list RationalInvestmentScore.t)
    (growth_positions : list GrowthValuationPosition.t)
    (short_term_signals : list ShortTermSignal.t) :
  (∀ s : gset string, iter_order s ≡ₚ elements s) →
  ∃ output,
    outcome (StrategyIntegrator.integrate_strategies self iter_order clock
               rational_scores growth_positions short_term_signals)
    = inr output
    ∧ ∀ signal, signal ∈ output →
        (IntegratedSignal.pass_all_strategies signal = true
         ↔ IntegratedSignal.signal_level signal = LEVEL_1)
        ∧ (IntegratedSignal.signal_level signal = LEVEL_1 →
           RationalInvestmentScore.survival_veto
             (IntegratedSignal.rational_investment signal) = false
           ∧ (StrategyIntegrator.rational_threshold self
              <= RationalInvestmentScore.total_score
                   (IntegratedSignal.rational_investment signal))%Q
           ∧ GrowthValuationPosition.quadrant
               (IntegratedSignal.growth_valuation signal)
             = StrategyIntegrator.target_quadrant self
           ∧ ShortTermSignal.all_hard_conditions_met
               (IntegratedSignal.short_term signal) = true)
        ∧ (RationalInvestmentScore.survival_veto
             (IntegratedSignal.rational_investment signal) = true →
           IntegratedSignal.signal_level signal ≠ LEVEL_1).
Proof.
  intros Hperm.
  destruct (output_signal_sources self iter_order clock rational_scores
              growth_positions short_term_signals Hperm)
    as (output & Hout & Hsrc).
  exists output. split; [exact Hout |].
  intros signal Hin.
  destruct (Hsrc signal Hin) as (_ & _ & _ & Hbuilt).
  destruct Hbuilt as (_ & _ & _ & _ & Hlevel & Hpass & _).
  cbv zeta in Hlevel, Hpass.
  assert (H1 : IntegratedSignal.signal_level signal = LEVEL_1 →
               RationalInvestmentScore.survival_veto
                 (IntegratedSignal.rational_investment signal) = false
               ∧ (StrategyIntegrator.rational_threshold self
                  <= RationalInvestmentScore.total_score
                       (IntegratedSignal.rational_investment signal))%Q
               ∧ GrowthValuationPosition.quadrant
                   (IntegratedSignal.growth_valuation signal)
                 = StrategyIntegrator.target_quadrant self
               ∧ ShortTermSignal.all_hard_conditions_met
                   (IntegratedSignal.short_term signal) = true).
  { rewrite Hlevel, determine_level_1_iff, !andb_true_iff, is_pass_true.
    unfold GrowthValuationPosition.is_in_target_quadrant.
    rewrite bool_decide_eq_true. tauto. }
  split; [| split; [exact H1 |]].
  - by rewrite Hpass, Hlevel, determine_level_1_iff.
  - intros Hveto Hl. apply H1 in Hl as (Hnoveto & _). congruence.
Qed.

Lemma pass_all_is_tier_1_witness :
  ∃ output,
    outcome (StrategyIntegrator.integrate_strategies
               StrategyIntegrator.default_integrator elements (λ _, 0)
               two_fundamentals two_positions two_timings)
    = inr output
    ∧ Forall (λ signal,
                IntegratedSignal.pass_all_strategies signal = true
                ↔ IntegratedSignal.signal_level signal = LEVEL_1) output.
Proof.
  destruct (pass_all_is_tier_1
              StrategyIntegrator.default_integrator elements (λ _, 0)
              two_fundamentals two_positions two_timings)
    as (output & Hout & Hall); [intros s; reflexivity |].
  exists output. split; [exact Hout |].
  apply Forall_forall. intros signal Hin. by apply Hall.
Defined.

Lemma confidence_ge_1 (self : StrategyIntegrator.t)
    (rational : RationalInvestmentScore.t) (growth : GrowthValuationPosition.t)
    (short_term : ShortTermSignal.t) (pass_all : bool) :
  (0 <= RationalInvestmentScore.total_score rational)%Q →
  (1 <= StrategyIntegrator._calculate_confidence_score
          self rational growth short_term pass_all)%Q.
Proof.
  intros Hscore. unfold StrategyIntegrator._calculate_confidence_score.
  apply py_min_glb; [| lra].
  assert (Hnorm : (0 <= py_min (RationalInvestmentScore.total_score rational / 10) 1)%Q).
  { apply py_min_glb; [div10; lra | lra]. }
  destruct (bool_decide _); [| destruct (_ && _)];
    destruct (ShortTermSignal.all_hard_conditions_met short_term);
    destruct (3 <=? _)%Z; destruct pass_all; lra.
Qed.

Lemma position_size_range (signal_level : SignalLevel)
    (confidence_score risk_reward_ratio : Q) :
  (1 <= confidence_score)%Q → (confidence_score <= 10)%Q →
  (0.0008 <= StrategyIntegrator._calculate_position_size
               signal_level confidence_score risk_reward_ratio)%Q
  ∧ (StrategyIntegrator._calculate_position_size
       signal_level confidence_score risk_reward_ratio <= 0.048)%Q.
Proof.
  intros H1 H10. unfold StrategyIntegrator._calculate_position_size. split.
  - apply py_min_glb; [| lra].
    unfold StrategyIntegrator.final_position, StrategyIntegrator.rr_multiplier.
    div10. destruct base_position_table as (B1 & B2 & B3).
    destruct signal_level; rewrite ?B1, ?B2, ?B3; case_Qltb; lra.
  - eapply Qle_trans; [apply py_min_le_l |].
    apply final_position_le; lra.
Qed.

(** When no fundamental verdict of the run has a negative total score,
    every returned signal has a confidence between 1 and 10 and a suggested
    position between 0.0008 and 0.048: the position is positive and the
    cap of 0.08 is not reached. *)
Theorem run_confidence_and_position_range (self : StrategyIntegrator.t)
    (iter_order : gset string → list string) (clock : nat → Z)
    (rational_scores : list RationalInvestmentScore.t)
    (growth_positions : list GrowthValuationPosition.t)
    (short_term_signals : list ShortTermSignal.t) :
  (∀ s : gset string, iter_order s ≡ₚ elements s) →
  Forall (λ r, (0 <= RationalInvestmentScore.total_score r)%Q) rational_scores →
  ∃ output,
    outcome (StrategyIntegrator.integrate_strategies self iter_order clock
               rational_scores growth_positions short_term_signals)
    = inr output
    ∧ ∀ signal, signal ∈ output →
        (1 <= IntegratedSignal.confidence_score signal)%Q
        ∧ (IntegratedSignal.confidence_score signal <= 10)%Q
        ∧ (0.0008 <= IntegratedSignal.suggested_position signal)%Q
        ∧ (IntegratedSignal.suggested_position signal <= 0.048)%Q.
Proof.
  intros Hperm Hscores.
  destruct (output_signal_sources self iter_order clock rational_scores
              growth_positions short_term_signals Hperm)
    as (output & Hout & Hsrc).
  exists output. split; [exact Hout |].
  intros signal Hin.
  destruct (Hsrc signal Hin) as (Hr & _ & _ & Hbuilt).
  destruct Hbuilt as (_ & _ & _ & _ & _ & _ & Hconf & rr & _ & Hpos).
  rewrite Forall_forall in Hscores. specialize (Hscores _ Hr).
  assert (H1 : (1 <= IntegratedSignal.confidence_score signal)%Q)
    by (rewrite Hconf; by apply confidence_ge_1).
  assert (H10 : (IntegratedSignal.confidence_score signal <= 10)%Q)
    by (rewrite Hconf; apply confidence_le_10).
  split; [exact H1 |]. split; [exact H10 |].
  rewrite Hpos. by apply position_size_range.
Qed.

Lemma run_confidence_and_position_range_witness :
  ∃ output,
    outcome (StrategyIntegrator.integrate_strategies
               StrategyIntegrator.default_integrator elements (λ _, 0)
               two_fundamentals two_positions two_timings)
    = inr output
    ∧ Forall (λ signal,
                (1 <= IntegratedSignal.confidence_score signal)%Q
                ∧ (IntegratedSignal.suggested_position signal <= 0.048)%Q)
        output.
Proof.
  destruct (run_confidence_and_position_range
              StrategyIntegrator.default_integrator elements (λ _, 0)
              two_fundamentals two_positions two_timings)
    as (output & Hout & Hall);
    [intros s; reflexivity | repeat constructor; by vm_compute |].
  exists output. split; [exact Hout |].
  apply Forall_forall. intros signal Hin.
  destruct (Hall signal Hin) as (? & _ & _ & ?). by split.
Defined.

Lemma confidence_tier_1 (self : StrategyIntegrator.t)
    (rational : RationalInvestmentScore.t) (growth : GrowthValuationPosition.t)
    (short_term : ShortTermSignal.t) :
  (7.5 <= RationalInvestmentScore.total_score rational)%Q →
  GrowthValuationPosition.quadrant growth = StrategyIntegrator.target_quadrant self →
  ShortTermSignal.all_hard_conditions_met short_term = true →
  (9 <= StrategyIntegrator._calculate_confidence_score
          self rational growth short_term true)%Q.
Proof.
  intros Hscore Hq Hhard. unfold StrategyIntegrator._calculate_confidence_score.
  rewrite Hhard. rewrite bool_decide_eq_true_2 by exact Hq.
  apply py_min_glb; [| lra].
  assert (Hnorm : (0.75 <= py_min (RationalInvestmentScore.total_score rational / 10) 1)%Q).
  { apply py_min_glb; [div10; lra | lra]. }
  destruct (3 <=? _)%Z; lra.
Qed.

Lemma position_size_tier_1 (confidence_score risk_reward_ratio : Q) :
  (9 <= confidence_score)%Q →
  (0.0288 <= StrategyIntegrator._calculate_position_size
               LEVEL_1 confidence_score risk_reward_ratio)%Q.
Proof.
  intros H9. unfold StrategyIntegrator._calculate_position_size.
  apply py_min_glb; [| lra].
  unfold StrategyIntegrator.final_position, StrategyIntegrator.rr_multiplier.
  div10. destruct base_position_table as (-> & _ & _). case_Qltb; lra.
Qed.

(** With a score threshold of 7.5 or more, as in the default configuration,
    every Tier 1 signal of a run has a confidence of at least 9 and a
    suggested position of at least 0.0288. *)
Theorem tier_1_confidence_floor (self : StrategyIntegrator.t)
    (iter_order : gset string → list string) (clock : nat → Z)
    (rational_scores : list RationalInvestmentScore.t)
    (growth_positions : list GrowthValuationPosition.t)
    (short_term_signals : list ShortTermSignal.t) :
  (∀ s : gset string, iter_order s ≡ₚ elements s) →
  (7.5 <= StrategyIntegrator.rational_threshold self)%Q →
  ∃ output,
    outcome (StrategyIntegrator.integrate_strategies self iter_order clock
               rational_scores growth_positions short_term_signals)
    = inr output
    ∧ ∀ signal, signal ∈ output →
        IntegratedSignal.signal_level signal = LEVEL_1 →
        (9 <= IntegratedSignal.confidence_score signal)%Q
        ∧ (0.0288 <= IntegratedSignal.suggested_position signal)%Q.
Proof.
  intros Hperm Hthreshold.
  destruct (output_signal_sources self iter_order clock rational_scores
              growth_positions short_term_signals Hperm)
    as (output & Hout & Hsrc).
  exists output. split; [exact Hout |].
  intros signal Hin Hl1.
  destruct (Hsrc signal Hin) as (_ & _ & _ & Hbuilt).
  destruct Hbuilt as (_ & _ & _ & _ & Hlevel & _ & Hconf & rr & _ & Hpos).
  cbv zeta in Hlevel, Hconf.
  rewrite Hl1 in Hlevel. symmetry in Hlevel.
  apply determine_level_1_iff in Hlevel. rewrite Hlevel in Hconf.
  apply andb_true_iff in Hlevel as [Hlevel Hhard].
  apply andb_true_iff in Hlevel as [Hpass Hq].
  apply is_pass_true in Hpass as [_ Hscore].
  apply bool_decide_eq_true in Hq.
  assert (H9 : (9 <= IntegratedSignal.confidence_score signal)%Q).
  { rewrite Hconf. apply confidence_tier_1; [lra | exact Hq | exact Hhard]. }
  split; [exact H9 |].
  rewrite Hpos, Hl1. by apply position_size_tier_1.
Qed.

Lemma tier_1_confidence_floor_witness :
  ∃ output,
    outcome (StrategyIntegrator.integrate_strategies
               StrategyIntegrator.default_integrator elements (λ _, 0)
               two_fundamentals two_positions two_timings)
    = inr output
    ∧ Forall (λ signal,
                IntegratedSignal.signal_level signal = LEVEL_1 →
                (9 <= IntegratedSignal.confidence_score signal)%Q)
        output.
Proof.
  destruct (tier_1_confidence_floor
              StrategyIntegrator.default_integrator elements (λ _, 0)
              two_fundamentals two_positions two_timings)
    as (output & Hout & Hall); [intros s; reflexivity | by vm_compute |].
  exists output. split; [exact Hout |].
  apply Forall_forall. intros signal Hin Hl1. by apply Hall.
Defined.

(** ** Records that share a code *)

Lemma dict_by_code_last {V : Type} (code : V → string)
    (earlier later : list V) (x : V) :
  code x ∉ code <$> later →
  StrategyIntegrator.dict_by_code code (earlier ++ x :: later) !! code x = Some x.
Proof.
  unfold StrategyIntegrator.dict_by_code.
  induction later as [| y later IH] using rev_ind; intros Hnotin.
  - by rewrite foldl_snoc, lookup_insert_eq.
  - rewrite fmap_app, not_elem_of_app in Hnotin. destruct Hnotin as [Hl Hy].
    cbn in Hy. rewrite list_elem_of_singleton in Hy.
    replace (earlier ++ x :: later ++ [y]) with ((earlier ++ x :: later) ++ [y])
      by (by rewrite <- app_assoc).
    rewrite foldl_snoc, lookup_insert_ne by congruence. by apply IH.
Qed.

(** When a collection holds several verdicts with the same stock code, the
    signal of that code is built from the last of them: this holds for the
    fundamental, the growth-valuation and the timing collection alike. *)
Theorem duplicate_code_last_wins (self : StrategyIntegrator.t)
    (iter_order : gset string → list string) (clock : nat → Z)
    (rational_scores : list RationalInvestmentScore.t)
    (growth_positions : list GrowthValuationPosition.t)
    (short_term_signals : list ShortTermSignal.t) :
  (∀ s : gset string, iter_order s ≡ₚ elements s) →
  ∃ output,
    outcome (StrategyIntegrator.integrate_strategies self iter_order clock
               rational_scores growth_positions short_term_signals)
    = inr output
    ∧ (∀ earlier r later signal,
         rational_scores = earlier ++ r :: later →
         RationalInvestmentScore.stock_code r
           ∉ RationalInvestmentScore.stock_code <$> later →
         signal ∈ output →
         IntegratedSignal.stock_code signal = RationalInvestmentScore.stock_code r →
         IntegratedSignal.rational_investment signal = r)
    ∧ (∀ earlier g later signal,
         growth_positions = earlier ++ g :: later →
         GrowthValuationPosition.stock_code g
           ∉ GrowthValuationPosition.stock_code <$> later →
         signal ∈ output →
         IntegratedSignal.stock_code signal = GrowthValuationPosition.stock_code g →
         IntegratedSignal.growth_valuation signal = g)
    ∧ (∀ earlier t later signal,
         short_term_signals = earlier ++ t :: later →
         ShortTermSignal.stock_code t ∉ ShortTermSignal.stock_code <$> later →
         signal ∈ output →
         IntegratedSignal.stock_code signal = ShortTermSignal.stock_code t →
         IntegratedSignal.short_term signal = t).
Proof.
  intros Hperm.
  destruct (integrate_strategies_output self iter_order clock rational_scores
              growth_positions short_term_signals Hperm)
    as (output & Hout & _ & _ & _ & Hem).
  exists output. split; [exact Hout |].
  split; [| split]; intros earlier x later signal -> Hnotin Hin Hcode;
    destruct (Hem signal Hin) as (r & g & s & Hr & Hg & Hs & Hbuilt);
    destruct Hbuilt as (_ & Er & Eg & Es & _);
    rewrite Hcode in *.
  - rewrite dict_by_code_last in Hr by exact Hnotin. congruence.
  - rewrite dict_by_code_last in Hg by exact Hnotin. congruence.
  - rewrite dict_by_code_last in Hs by exact Hnotin. congruence.
Qed.

Lemma duplicate_code_last_wins_witness :
  ∃ output,
    outcome (StrategyIntegrator.integrate_strategies
               StrategyIntegrator.default_integrator elements (λ _, 0)
               (fundamental_at "A" 2 :: two_fundamentals)
               two_positions two_timings)
    = inr output
    ∧ Forall (λ signal,
                IntegratedSignal.stock_code signal = "A" →
                IntegratedSignal.rational_investment signal
                = fundamental_at "A" 8)
        output.
Proof.
  destruct (duplicate_code_last_wins
              StrategyIntegrator.default_integrator elements (λ _, 0)
              (fundamental_at "A" 2 :: two_fundamentals)
              two_positions two_timings)
    as (output & Hout & Hlast & _); [intros s; reflexivity |].
  exists output. split; [exact Hout |].
  apply Forall_forall. intros signal Hin Hcode.
  apply (Hlast [fundamental_at "A" 2] (fundamental_at "A" 8)
               [fundamental_at "B" 5] signal);
    [reflexivity | | exact Hin | exact Hcode].
  apply (bool_decide_unpack _). by vm_compute.
Defined.

(** ** Order within a tier *)

Lemma StronglySorted_lookup {A : Type} (R : A → A → Prop) (l : list A)
    (i j : nat) (x y : A) :
  StronglySorted R l → (i < j)%nat → l !! i = Some x → l !! j = Some y → R x y.
Proof.
  intros Hsorted. revert i j. induction Hsorted as [| a l _ IH Hall];
    intros i j Hij Hi Hj; [by rewrite lookup_nil in Hi |].
  destruct j as [| j]; [lia |]. cbn in Hj.
  destruct i as [| i].
  - cbn in Hi. injection Hi as ->.
    rewrite Forall_forall in Hall. apply Hall.
    by apply list_elem_of_lookup_2 in Hj.
  - cbn in Hi. apply (IH i j); [lia | assumption ..].
Qed.

(** In the list a run returns, of two signals of the same tier the one
    that comes first has the higher or an equal confidence score. *)
Theorem same_tier_confidence_descending (self : StrategyIntegrator.t)
    (iter_order : gset string → list string) (clock : nat → Z)
    (rational_scores : list RationalInvestmentScore.t)
    (growth_positions : list GrowthValuationPosition.t)
    (short_term_signals : list ShortTermSignal.t) :
  ∃ output,
    outcome (StrategyIntegrator.integrate_strategies self iter_order clock
               rational_scores growth_positions short_term_signals)
    = inr output
    ∧ ∀ (i j : nat) first second,
        (i < j)%nat → output !! i = Some first → output !! j = Some second →
        IntegratedSignal.signal_level first = IntegratedSignal.signal_level second →
        (IntegratedSignal.confidence_score second
         <= IntegratedSignal.confidence_score first)%Q.
Proof.
  destruct (integrate_strategies_sorted_by_value self iter_order clock
              rational_scores growth_positions short_term_signals)
    as (output & Hout & Hsorted).
  exists output. split; [exact Hout |].
  intros i j first second Hij Hi Hj Hlevel.
  destruct (StronglySorted_lookup _ _ _ _ _ _ Hsorted Hij Hi Hj) as [Hlt | [_ Hle]];
    [| exact Hle].
  rewrite Hlevel in Hlt. lia.
Qed.

(** ** The report *)

(** What a dictionary takes over from its signal. *)
Lemma to_dict_run (signal : IntegratedSignal.t) :
  ∃ data,
    outcome (to_dict signal) = inr data
    ∧ Forall (Qlt 0) (denominators (to_dict signal))
    ∧ SignalDict.stock_code data = IntegratedSignal.stock_code signal
    ∧ SignalDict.signal_level data = value (IntegratedSignal.signal_level signal)
    ∧ SignalDict.confidence_score data = IntegratedSignal.confidence_score signal
    ∧ Quadrant_of_value (SignalDict.quadrant data)
      = Some (GrowthValuationPosition.quadrant
                (IntegratedSignal.growth_valuation signal)).
Proof.
  unfold to_dict. cbv zeta.
  destruct (potential_return_run (IntegratedSignal.short_term signal))
    as (pr & Hpr & Hdp).
  destruct (risk_reward_ratio_run (IntegratedSignal.short_term signal))
    as (rr & Hrr & Hdr).
  destruct (ShortTermSignal.potential_return _) as [logp rp].
  destruct (ShortTermSignal.risk_reward_ratio _) as [logr rrr].
  unfold outcome, denominators in *. cbn in Hpr, Hdp, Hrr, Hdr. subst rp rrr.
  rewrite !Div_bind_inr. cbn. rewrite app_nil_r.
  eexists. split; [reflexivity |].
  split; [by rewrite !Forall_app |].
  cbn. repeat split.
  by destruct (GrowthValuationPosition.quadrant _).
Qed.

Lemma to_dicts_run (signals : list IntegratedSignal.t) :
  ∃ listed,
    outcome (to_dicts signals) = inr listed
    ∧ Forall (Qlt 0) (denominators (to_dicts signals))
    ∧ Forall2 (λ signal data,
                 SignalDict.stock_code data = IntegratedSignal.stock_code signal
                 ∧ SignalDict.signal_level data
                   = value (IntegratedSignal.signal_level signal)
                 ∧ SignalDict.confidence_score data
                   = IntegratedSignal.confidence_score signal)
        signals listed.
Proof.
  induction signals as [| signal rest IH]; cbn [to_dicts].
  - exists []. repeat split; constructor.
  - destruct (to_dict_run signal) as (data & Hout & Hden & Hc & Hl & Hconf & _).
    destruct IH as (listed & Hout' & Hden' & Hall).
    destruct (to_dict signal) as [log r].
    destruct (to_dicts rest) as [log' r'].
    unfold outcome, denominators in *. cbn in Hout, Hden, Hout', Hden'.
    subst r r'. rewrite !Div_bind_inr. cbn. rewrite app_nil_r.
    exists (data :: listed). split; [reflexivity |].
    split; [by rewrite Forall_app |].
    by constructor.
Qed.

Lemma length_positive_Q {A : Type} (x : A) (l : list A) :
  (0 < inject_Z (Z.of_nat (length (x :: l))))%Q.
Proof.
  unfold Qlt. cbn [Qnum Qden inject_Z]. cbn [length]. lia.
Qed.

(** The run of [generate_report] on a list that is not empty. *)
Lemma generate_report_run (first : IntegratedSignal.t)
    (rest : list IntegratedSignal.t) :
  let signals := first :: rest in
  let n := inject_Z (Z.of_nat (length signals)) in
  ∃ listed,
    outcome (generate_report signals)
    = inr (Report.summary
             (Z.of_nat (length signals))
             (count_if (λ s, bool_decide (IntegratedSignal.signal_level s = LEVEL_1)) signals)
             (count_if (λ s, bool_decide (IntegratedSignal.signal_level s = LEVEL_2)) signals)
             (count_if (λ s, bool_decide (IntegratedSignal.signal_level s = LEVEL_3)) signals)
             (count_if IntegratedSignal.pass_all_strategies signals)
             listed
             (float_sum ((λ s, RationalInvestmentScore.total_score
                                 (IntegratedSignal.rational_investment s)) <$> signals) / n)
             (float_sum (IntegratedSignal.confidence_score <$> signals) / n)
             (py_max_from (IntegratedSignal.confidence_score first)
                (IntegratedSignal.confidence_score <$> rest)))
    ∧ Forall (Qlt 0) (denominators (generate_report signals))
    ∧ Forall2 (λ signal data,
                 SignalDict.stock_code data = IntegratedSignal.stock_code signal
                 ∧ SignalDict.signal_level data
                   = value (IntegratedSignal.signal_level signal)
                 ∧ SignalDict.confidence_score data
                   = IntegratedSignal.confidence_score signal)
        (take 10 signals) listed.
Proof.
  intros signals n. unfold generate_report. subst signals. cbv zeta.
  destruct (to_dicts_run (take 10 (first :: rest))) as (listed & Hout & Hden & Hall).
  destruct (to_dicts (take 10 (first :: rest))) as [log r].
  unfold outcome, denominators in *. cbn [fst snd] in Hout, Hden. subst r.
  pose proof (length_positive_Q first rest) as Hn. fold n in Hn.
  rewrite Div_bind_inr.
  rewrite !truediv_positive by exact Hn.
  rewrite !Div_bind_inr. cbn [fst snd mret Div_ret]. 
  exists listed. split; [reflexivity |]. split; [| exact Hall].
  rewrite !Forall_app. repeat split; try exact Hden; repeat constructor; exact Hn.
Qed.

Lemma count_if_cons {A : Type} (test : A → bool) (x : A) (l : list A) :
  count_if test (x :: l) = (if test x then 1 else 0) + count_if test l.
Proof.
  unfold count_if. cbn [foldl].
  assert (Hacc : ∀ l n, foldl (λ n x, if test x then n + 1 else n) n l
                        = n + foldl (λ n x, if test x then n + 1 else n) 0 l).
  { clear. intros l. induction l as [| y l IH]; intros n; cbn [foldl]; [lia |].
    rewrite IH, (IH (if test y then 0 + 1 else 0)).
    destruct (test y); lia. }
  rewrite Hacc. destruct (test x); lia.
Qed.

Lemma count_if_range {A : Type} (test : A → bool) (l : list A) :
  0 <= count_if test l <= Z.of_nat (length l).
Proof.
  induction l as [| x l IH]; [cbn; lia |].
  rewrite count_if_cons. cbn [length]. destruct (test x); lia.
Qed.

Lemma count_if_ext {A : Type} (test test' : A → bool) (l : list A) :
  (∀ x, x ∈ l → test x = test' x) → count_if test l = count_if test' l.
Proof.
  induction l as [| x l IH]; intros Hext; [reflexivity |].
  rewrite !count_if_cons.
  rewrite IH by (intros y Hy; apply Hext; by apply list_elem_of_further).
  by rewrite (Hext x) by apply list_elem_of_here.
Qed.

Lemma count_levels (signals : list IntegratedSignal.t) :
  count_if (λ s, bool_decide (IntegratedSignal.signal_level s = LEVEL_1)) signals
  + count_if (λ s, bool_decide (IntegratedSignal.signal_level s = LEVEL_2)) signals
  + count_if (λ s, bool_decide (IntegratedSignal.signal_level s = LEVEL_3)) signals
  = Z.of_nat (length signals).
Proof.
  induction signals as [| s signals IH]; [reflexivity |].
  rewrite !count_if_cons. cbn [length]. rewrite Nat2Z.inj_succ.
  repeat case_bool_decide;
    destruct (IntegratedSignal.signal_level s); try congruence; lia.
Qed.

(** [generate_report] never divides by zero: it returns the message for an
    empty list exactly on the empty list and a summary on every other
    list, and each denominator it uses is positive. *)
Theorem generate_report_never_faults (signals : list IntegratedSignal.t) :
  ∃ report,
    outcome (generate_report signals) = inr report
    ∧ Forall (Qlt 0) (denominators (generate_report signals))
    ∧ (report = Report.no_signals ↔ signals = []).
Proof.
  destruct signals as [| first rest].
  - exists Report.no_signals. repeat split; constructor.
  - destruct (generate_report_run first rest) as (listed & Hout & Hden & _).
    eexists. split; [exact Hout |]. split; [exact Hden |].
    split; discriminate.
Qed.

(** In the summary of a list that is not empty, the three tier counts add
    up to the number of signals, the count of signals passing all
    strategies lies between 0 and that number, and the signals listed are
    the first ten of the list, or all of them when there are fewer, in the
    order of the list. *)
Theorem generate_report_counts (first : IntegratedSignal.t)
    (rest : list IntegratedSignal.t) :
  ∃ level1_count level2_count level3_count pass_all_count listed
    avg_rational_score avg_confidence max_confidence,
    outcome (generate_report (first :: rest))
    = inr (Report.summary (Z.of_nat (length (first :: rest))) level1_count
             level2_count level3_count pass_all_count listed
             avg_rational_score avg_confidence max_confidence)
    ∧ level1_count + level2_count + level3_count
      = Z.of_nat (length (first :: rest))
    ∧ 0 <= pass_all_count <= Z.of_nat (length (first :: rest))
    ∧ length listed = Nat.min 10 (length (first :: rest))
    ∧ SignalDict.stock_code <$> listed
      = IntegratedSignal.stock_code <$> take 10 (first :: rest).
Proof.
  destruct (generate_report_run first rest) as (listed & Hout & _ & Hall).
  do 8 eexists. split; [exact Hout |].
  split; [apply count_levels |].
  split; [apply count_if_range |].
  split.
  - rewrite <- (Forall2_length _ _ _ Hall). apply length_take.
  - clear Hout. induction Hall as [| s d ss ds (Hc & _) _ IH]; [reflexivity |].
    cbn. by rewrite Hc, IH.
Qed.

Lemma py_max_from_spec (first : Q) (rest : list Q) :
  (first <= py_max_from first rest)%Q
  ∧ Forall (λ x, (x <= py_max_from first rest)%Q) rest
  ∧ py_max_from first rest ∈ first :: rest.
Proof.
  unfold py_max_from. revert first.
  induction rest as [| y rest IH]; intros first; cbn [foldl].
  - split; [lra |]. split; [constructor | apply list_elem_of_here].
  - destruct (Qltb first y) eqn:E.
    + apply Qltb_true in E. destruct (IH y) as (H1 & H2 & H3).
      split; [lra |]. split; [by constructor |].
      by apply list_elem_of_further.
    + apply Qltb_false in E. destruct (IH first) as (H1 & H2 & H3).
      split; [exact H1 |]. split; [constructor; [lra | exact H2] |].
      apply elem_of_cons in H3 as [-> | H3];
        [apply list_elem_of_here | by do 2 apply list_elem_of_further].
Qed.




(** The report of the list a run returns: the count of signals passing all
    strategies equals the Tier 1 count, and the greatest confidence is at
    most 10; the run returns no signal exactly when the report is the
    message for an empty list. *)
Theorem report_of_a_run (self : StrategyIntegrator.t)
    (iter_order : gset string → list string) (clock : nat → Z)
    (rational_scores : list RationalInvestmentScore.t)
    (growth_positions : list GrowthValuationPosition.t)
    (short_term_signals : list ShortTermSignal.t) :
  (∀ s : gset string, iter_order s ≡ₚ elements s) →
  ∃ output report,
    outcome (StrategyIntegrator.integrate_strategies self iter_order clock
               rational_scores growth_positions short_term_signals)
    = inr output
    ∧ outcome (generate_report output) = inr report
    ∧ match report with
      | Report.no_signals => output = []
      | Report.summary total level1_count _ _ pass_all_count _ _ _ max_confidence =>
          total = Z.of_nat (length output)
          ∧ pass_all_count = level1_count
          ∧ (max_confidence <= 10)%Q
      end.
Proof.
  intros Hperm.
  destruct (output_signal_sources self iter_order clock rational_scores
              growth_positions short_term_signals Hperm)
    as (output & Hout & Hsrc).
  exists output.
  destruct output as [| first rest].
  - exists Report.no_signals. by repeat split.
  - destruct (generate_report_run first rest) as (listed & Hrep & _ & _).
    eexists. split; [exact Hout |]. split; [exact Hrep |].
    split; [reflexivity |]. split.
    + apply count_if_ext. intros signal Hin.
      destruct (Hsrc signal Hin) as (_ & _ & _ & Hbuilt).
      destruct Hbuilt as (_ & _ & _ & _ & Hlevel & Hpass & _).
      cbv zeta in Hlevel, Hpass. rewrite Hpass, Hlevel.
      destruct (RationalInvestmentScore.is_pass _ _),
        (GrowthValuationPosition.is_in_target_quadrant _ _),
        (ShortTermSignal.all_hard_conditions_met _); reflexivity.
    + destruct (py_max_from_spec (IntegratedSignal.confidence_score first)
                  (IntegratedSignal.confidence_score <$> rest)) as (_ & _ & H3).
      rewrite <- fmap_cons in H3.
      apply list_elem_of_fmap in H3 as (signal & -> & Hin).
      destruct (Hsrc signal Hin) as (_ & _ & _ & Hbuilt).
      destruct Hbuilt as (_ & _ & _ & _ & _ & _ & Hconf & _).
      rewrite Hconf. apply confidence_le_10.
Qed.

Lemma report_of_a_run_witness :
  ∃ output report,
    outcome (StrategyIntegrator.integrate_strategies
               StrategyIntegrator.default_integrator elements (λ _, 0)
               two_fundamentals two_positions two_timings)
    = inr output
    ∧ outcome (generate_report output) = inr report
    ∧ match report with
      | Report.no_signals => output = []
      | Report.summary total level1_count _ _ pass_all_count _ _ _ max_confidence =>
          total = Z.of_nat (length output)
          ∧ pass_all_count = level1_count
          ∧ (max_confidence <= 10)%Q
      end.
Proof.
  apply report_of_a_run. intros s. reflexivity.
Defined.

(** ** Quadrants by value *)


(** ** Relative position, case by case *)

(** [get_relative_position] returns the pair of differences to the two
    industry averages when both are known and neither is zero, and the
    neutral pair when one of them is unknown. *)
Theorem get_relative_position_cases (p : GrowthValuationPosition.t) :
  (∀ g v,
     GrowthValuationPosition.industry_avg_growth p = Some g →
     GrowthValuationPosition.industry_avg_valuation p = Some v →
     ¬ (g == 0)%Q → ¬ (v == 0)%Q →
     GrowthValuationPosition.get_relative_position p
     = ((GrowthValuationPosition.growth_rate p - g)%Q,
        (GrowthValuationPosition.valuation p - v)%Q)) ∧
  (GrowthValuationPosition.industry_avg_growth p = None
   ∨ GrowthValuationPosition.industry_avg_valuation p = None →
   GrowthValuationPosition.get_relative_position p = (0%Q, 0%Q)).
Proof.
  split.
  - intros g v Hg Hv Hg0 Hv0.
    unfold GrowthValuationPosition.get_relative_position.
    rewrite Hg, Hv. unfold float_truthy.
    apply Qeq_bool_false in Hg0, Hv0. by rewrite Hg0, Hv0.
  - unfold GrowthValuationPosition.get_relative_position.
    intros [H | H]; rewrite H; [reflexivity |].
    by destruct (GrowthValuationPosition.industry_avg_growth p).
Qed.

Lemma get_relative_position_cases_witness :
  GrowthValuationPosition.get_relative_position benchmarked_position
  = ((0.2 - 0.1)%Q, (10 - 15)%Q) ∧
  GrowthValuationPosition.get_relative_position (position_at "600000" TOP_LEFT None)
  = (0%Q, 0%Q).
Proof.
  split.
  - destruct (get_relative_position_cases benchmarked_position) as [Hknown _].
    apply (Hknown 0.1%Q 15%Q); try reflexivity;
      intros H; vm_compute in H; discriminate.
  - destruct (get_relative_position_cases (position_at "600000" TOP_LEFT None))
      as [_ Hunknown].
    apply Hunknown. by left.
Defined.

(** ** Size of the output and trade plan of a signal *)

(** A run returns no more signals than any of the three collections has
    verdicts, and it returns none exactly when no stock code is present in
    all three. *)
Theorem run_output_size (self : StrategyIntegrator.t)
    (iter_order : gset string → list string) (clock : nat → Z)
    (rational_scores : list RationalInvestmentScore.t)
    (growth_positions : list GrowthValuationPosition.t)
    (short_term_signals : list ShortTermSignal.t) :
  (∀ s : gset string, iter_order s ≡ₚ elements s) →
  ∃ output,
    outcome (StrategyIntegrator.integrate_strategies self iter_order clock
               rational_scores growth_positions short_term_signals)
    = inr output
    ∧ (length output <= length rational_scores)%nat
    ∧ (length output <= length growth_positions)%nat
    ∧ (length output <= length short_term_signals)%nat
    ∧ (output = []
       ↔ ∀ code,
           ¬ (code ∈ RationalInvestmentScore.stock_code <$> rational_scores
              ∧ code ∈ GrowthValuationPosition.stock_code <$> growth_positions
              ∧ code ∈ ShortTermSignal.stock_code <$> short_term_signals)).
Proof.
  intros Hperm.
  destruct (integrate_strategies_output self iter_order clock rational_scores
              growth_positions short_term_signals Hperm)
    as (output & Hout & _ & Hnodup & Hcodes & _).
  exists output. split; [exact Hout |].
  assert (Hlen : ∀ (codes : list string),
            (∀ code, code ∈ IntegratedSignal.stock_code <$> output → code ∈ codes) →
            (length output <= length codes)%nat).
  { intros codes Hsub.
    rewrite <- (length_fmap IntegratedSignal.stock_code output).
    apply submseteq_length, NoDup_submseteq; assumption. }
  split; [| split; [| split]].
  - rewrite <- (length_fmap RationalInvestmentScore.stock_code rational_scores).
    apply Hlen. intros code Hin. by apply Hcodes in Hin as (? & _ & _).
  - rewrite <- (length_fmap GrowthValuationPosition.stock_code growth_positions).
    apply Hlen. intros code Hin. by apply Hcodes in Hin as (_ & ? & _).
  - rewrite <- (length_fmap ShortTermSignal.stock_code short_term_signals).
    apply Hlen. intros code Hin. by apply Hcodes in Hin as (_ & _ & ?).
  - split.
    + intros -> code Hcode. apply Hcodes in Hcode. by apply not_elem_of_nil in Hcode.
    + intros Hnone. destruct output as [| signal rest]; [reflexivity | exfalso].
      apply (Hnone (IntegratedSignal.stock_code signal)), Hcodes.
      cbn. apply list_elem_of_here.
Qed.

Lemma run_output_size_witness :
  ∃ output,
    outcome (StrategyIntegrator.integrate_strategies
               StrategyIntegrator.default_integrator elements (λ _, 0)
               two_fundamentals two_positions [timing_at "A" true 3 10 12 14 9])
    = inr output
    ∧ (length output <= 1)%nat.
Proof.
  destruct (run_output_size
              StrategyIntegrator.default_integrator elements (λ _, 0)
              two_fundamentals two_positions [timing_at "A" true 3 10 12 14 9])
    as (output & Hout & _ & _ & Hlen & _); [intros s; reflexivity |].
  exists output. by split.
Defined.

Lemma integrate_loop_built_by (self : StrategyIntegrator.t) (clock : nat → Z)
    (rational_dict : gmap string RationalInvestmentScore.t)
    (growth_dict : gmap string GrowthValuationPosition.t)
    (short_term_dict : gmap string ShortTermSignal.t)
    (codes : list string) (acc : list IntegratedSignal.t) :
  ∃ signals,
    outcome (StrategyIntegrator.integrate_loop self clock rational_dict
               growth_dict short_term_dict codes acc) = inr (acc ++ signals)
    ∧ Forall (built_by self clock rational_dict growth_dict short_term_dict)
        signals.
Proof.
  revert acc. induction codes as [| code rest IH]; intros acc.
  - exists []. cbn. rewrite app_nil_r. by split.
  - cbn [StrategyIntegrator.integrate_loop].
    destruct (rational_dict !! code) as [rational |] eqn:Er;
      [destruct (growth_dict !! code) as [growth |] eqn:Eg;
       [destruct (short_term_dict !! code) as [short_term |] eqn:Es |] |];
      try apply IH.
    destruct (build_signal_run self (clock (length acc)) code
                rational growth short_term) as (signal & Hout & _ & _).
    destruct (StrategyIntegrator.build_signal _ _ _ _ _ _) as [log r] eqn:Eb.
    unfold outcome in Hout. cbn in Hout. subst r.
    destruct (IH (acc ++ [signal])) as (signals & Hout' & Hall).
    rewrite Div_bind_inr. exists (signal :: signals).
    unfold outcome in *. cbn. split.
    + rewrite Hout'. by rewrite <- app_assoc.
    + constructor; [| exact Hall].
      exists (length acc), code, rational, growth, short_term.
      by rewrite Eb.
Qed.

Lemma build_signal_fields (self : StrategyIntegrator.t) (now : Z) (code : string)
    (rational : RationalInvestmentScore.t) (growth : GrowthValuationPosition.t)
    (short_term : ShortTermSignal.t) (signal : IntegratedSignal.t) :
  outcome (StrategyIntegrator.build_signal self now code rational growth short_term)
  = inr signal →
  IntegratedSignal.rational_investment signal = rational
  ∧ IntegratedSignal.short_term signal = short_term
  ∧ IntegratedSignal.stock_name signal = RationalInvestmentScore.stock_name rational
  ∧ IntegratedSignal.entry_price_range signal
    = ((ShortTermSignal.current_price short_term * 0.98)%Q,
       (ShortTermSignal.current_price short_term * 1.02)%Q)
  ∧ IntegratedSignal.targets signal
    = [ShortTermSignal.first_target short_term;
       ShortTermSignal.second_target short_term]
  ∧ IntegratedSignal.stop_loss signal = ShortTermSignal.stop_loss short_term
  ∧ IntegratedSignal.holding_period signal = (5, 20).
Proof.
  unfold StrategyIntegrator.build_signal. cbv zeta.
  destruct (ShortTermSignal.risk_reward_ratio short_term) as [log [e | rr]].
  - discriminate.
  - rewrite Div_bind_inr. cbn. intros [= <-]. by repeat split.
Qed.

(** Every signal a run returns carries the name of its fundamental verdict
    and the prices of its timing verdict: the two targets in order, the
    stop-loss, an entry range from 98% to 102% of the current price, which
    holds the current price when that price is not negative, and a holding
    period of 5 to 20 days. *)
Theorem signal_trade_plan (self : StrategyIntegrator.t)
    (iter_order : gset string → list string) (clock : nat → Z)
    (rational_scores : list RationalInvestmentScore.t)
    (growth_positions : list GrowthValuationPosition.t)
    (short_term_signals : list ShortTermSignal.t) :
  ∃ output,
    outcome (StrategyIntegrator.integrate_strategies self iter_order clock
               rational_scores growth_positions short_term_signals)
    = inr output
    ∧ ∀ signal, signal ∈ output →
        let short_term := IntegratedSignal.short_term signal in
        IntegratedSignal.stock_name signal
        = RationalInvestmentScore.stock_name
            (IntegratedSignal.rational_investment signal)
        ∧ IntegratedSignal.targets signal
          = [ShortTermSignal.first_target short_term;
             ShortTermSignal.second_target short_term]
        ∧ IntegratedSignal.stop_loss signal = ShortTermSignal.stop_loss short_term
        ∧ IntegratedSignal.entry_price_range signal
          = ((ShortTermSignal.current_price short_term * 0.98)%Q,
             (ShortTermSignal.current_price short_term * 1.02)%Q)
        ∧ ((0 <= ShortTermSignal.current_price short_term)%Q →
           ((IntegratedSignal.entry_price_range signal).1
            <= ShortTermSignal.current_price short_term)%Q
           ∧ (ShortTermSignal.current_price short_term
              <= (IntegratedSignal.entry_price_range signal).2)%Q)
        ∧ IntegratedSignal.holding_period signal = (5, 20).
Proof.
  unfold StrategyIntegrator.integrate_strategies. cbv zeta.
  match goal with
  | |- context [StrategyIntegrator.integrate_loop ?s ?c ?rd ?gd ?sd ?codes []] =>
      destruct (integrate_loop_built_by s c rd gd sd codes [])
        as (signals & Hout & Hall);
      destruct (StrategyIntegrator.integrate_loop s c rd gd sd codes [])
        as [log r]
  end.
  unfold outcome in *. cbn in Hout. subst r.
  rewrite Div_bind_inr. cbn.
  eexists. split; [reflexivity |].
  intros signal Hin. rewrite sort_reverse_perm in Hin.
  rewrite Forall_forall in Hall.
  destruct (Hall signal Hin) as (n & code & r & g & s & _ & _ & _ & Hbuilt).
  apply build_signal_fields in Hbuilt
    as (-> & -> & Hname & Hentry & Htargets & Hstop & Hhold).
  cbv zeta. rewrite Hentry. cbn [fst snd].
  repeat split; try assumption; lra.
Qed.
